(** * scimago_parser: a shallow embedding of [src/scimago_parser.py]

    The script reads a semicolon-delimited CSV export, parses the [Issn]
    and [SJR] columns of every row, folds the rows into a dictionary from
    ISSN to rounded score (keeping the maximum on duplicates) and writes
    the dictionary as a JavaScript module.

    Conventions of the embedding.
    - A Python [str] is a [string]; a character is a code point below 256
      (the [ascii] type read as Latin-1), so every ASCII input is covered
      and the two Latin-1 white-space characters U+0085 and U+00A0 are too.
    - A Python [int] is a [Z].
    - A value that is [None] or a [str] is an [option string].
    - A call that may raise returns a [result]; the exception classes are
      the constructors of [exn].
    - A [dict] with [str] keys is a [gmap string _]. *)

From Stdlib Require Import ZArith Ascii String List Lia Bool.
From Stdlib Require Import Numbers.DecimalString.
From stdpp Require Import base option list gmap strings sorting.

Local Open Scope Z_scope.

(** ** Exceptions and results *)

Inductive exn : Type :=
  | FileNotFoundError (msg : string)
  | ValueError (msg : string)
  | AttributeError
  | OverflowError
  | CsvError (msg : string).

Inductive result (A : Type) : Type :=
  | Ok (a : A)
  | Raise (e : exn).

Arguments Ok {A} a.
Arguments Raise {A} e.

Global Instance result_bind : MBind result := λ A B k r,
  match r with
  | Ok a => k a
  | Raise e => Raise e
  end.

Global Instance result_ret : MRet result := λ A a, Ok a.

Global Instance result_fmap : FMap result := λ A B f r,
  match r with
  | Ok a => Ok (f a)
  | Raise e => Raise e
  end.

(** ** Python string primitives used by the script *)

Module Py.

Definition code (c : ascii) : N := N_of_ascii c.

Definition between (lo hi : N) (c : ascii) : bool :=
  ((lo <=? code c) && (code c <=? hi))%N.

(** [str.isspace] on one character, for code points below 256:
    U+0009..U+000D, U+001C..U+0020, U+0085 and U+00A0. *)
Definition isspace (c : ascii) : bool :=
  between 9 13 c || between 28 32 c || (code c =? 133)%N || (code c =? 160)%N.

(** The class [[0-9]] of a [str] pattern, and the ASCII digits of
    [float]. *)
Definition isdigit (c : ascii) : bool := between 48 57 c.

Definition is_empty (s : string) : bool :=
  match s with
  | EmptyString => true
  | String _ _ => false
  end.

Fixpoint lstrip_by (p : ascii → bool) (s : string) : string :=
  match s with
  | EmptyString => EmptyString
  | String c s' => if p c then lstrip_by p s' else s
  end.

Fixpoint rstrip_by (p : ascii → bool) (s : string) : string :=
  match s with
  | EmptyString => EmptyString
  | String c s' =>
      let r := rstrip_by p s' in
      if p c && is_empty r then EmptyString else String c r
  end.

(** [s.strip()]: leading and trailing white space removed. *)
Definition strip (s : string) : string :=
  rstrip_by isspace (lstrip_by isspace s).

(** [s.replace(old, new)] for a one-character [old]. *)
Fixpoint replace (old : ascii) (new : string) (s : string) : string :=
  match s with
  | EmptyString => EmptyString
  | String c s' =>
      if Ascii.eqb c old then new +:+ replace old new s'
      else String c (replace old new s')
  end.

(** [c in s] for a one-character [c]. *)
Fixpoint contains (c : ascii) (s : string) : bool :=
  match s with
  | EmptyString => false
  | String d s' => Ascii.eqb d c || contains c s'
  end.

(** [s.split(sep)] for a one-character [sep]: never the empty list. *)
Fixpoint split (sep : ascii) (s : string) : list string :=
  match s with
  | EmptyString => [EmptyString]
  | String c s' =>
      if Ascii.eqb c sep then EmptyString :: split sep s'
      else match split sep s' with
           | piece :: rest => String c piece :: rest
           | [] => [String c EmptyString]
           end
  end.

Fixpoint all_chars (p : ascii → bool) (s : string) : bool :=
  match s with
  | EmptyString => true
  | String c s' => p c && all_chars p s'
  end.

(** [sep.join(pieces)] *)
Fixpoint join (sep : string) (pieces : list string) : string :=
  match pieces with
  | [] => EmptyString
  | [piece] => piece
  | piece :: rest => piece +:+ sep +:+ join sep rest
  end.

(** [str(n)] for an [int]: decimal digits, a minus sign when negative. *)
Definition str_int (n : Z) : string :=
  NilZero.string_of_int (Z.to_int n).

(** [sorted(keys)] for strings: ascending by code points. *)
Definition sorted (keys : list string) : list string :=
  merge_sort String.le keys.

(** [v.strip()] where [v] may be [None]. *)
Definition strip_value (v : option string) : result string :=
  match v with
  | None => Raise AttributeError
  | Some s => Ok (strip s)
  end.

(** Truth value of a [None]-or-[str] value ([not v] is its negation). *)
Definition truthy (v : option string) : bool :=
  match v with
  | None => false
  | Some s => negb (is_empty s)
  end.

End Py.

(** ** The regular expression [ISSN_PATTERN]

    Only the constructs the pattern uses: a character class, an optional
    literal, and the end anchor.  [re.match] anchors at the start of the
    string; [$] holds at the end of the string and just before a newline
    that ends the string. *)

Module Re.

Inductive atom : Type :=
  | Class (p : ascii → bool)
  | Optional (c : ascii)
  | Dollar.

Definition at_end (s : string) : bool :=
  match s with
  | EmptyString => true
  | String c EmptyString => Ascii.eqb c "010"
  | _ => false
  end.

Fixpoint matches (r : list atom) (s : string) : bool :=
  match r with
  | [] => true
  | Class p :: r' =>
      match s with
      | String c s' => p c && matches r' s'
      | EmptyString => false
      end
  | Optional c :: r' =>
      match s with
      | String d s' => (Ascii.eqb d c && matches r' s') || matches r' s
      | EmptyString => matches r' s
      end
  | Dollar :: r' => at_end s && matches r' s
  end.

Definition repeat (n : nat) (a : atom) : list atom := List.repeat a n.

End Re.

(** ** Python floats: [float(str)] and [round(float)]

    A float is an IEEE 754 binary64 value.  [float] converts a decimal
    literal to the nearest double, ties to even, and to an infinity past
    the largest double; [round] with one argument rounds a double to the
    nearest integer, ties to even, and raises on a NaN or an infinity. *)

Module Float.

(** [Finite neg m e] is [(-1)^neg * m * 2^e]. *)
Inductive t : Type :=
  | Finite (neg : bool) (m e : Z)
  | Inf (neg : bool)
  | NaN.

(** Nearest integer to [p / q], ties to even, for [0 <= p] and [0 < q]. *)
Definition round_half_even (p q : Z) : Z :=
  let d := p / q in
  match 2 * (p mod q) ?= q with
  | Lt => d
  | Gt => d + 1
  | Eq => if Z.even d then d else d + 1
  end.

(** The fraction [(p / q) / 2^e]. *)
Definition scale2 (p q e : Z) : Z * Z :=
  if 0 <=? e then (p, q * 2 ^ e) else (p * 2 ^ (- e), q).

(** [floor (log2 (p / q))] for [0 < p] and [0 < q]. *)
Definition floor_log2 (p q : Z) : Z :=
  let k := Z.log2 p - Z.log2 q in
  let '(p', q') := scale2 p q k in
  if q' <=? p' then k else k - 1.

(** The double nearest to [p / q]: 53 significant bits, exponent of the
    last bit at least -1074, overflow at [2^1024]. *)
Definition of_ratio (neg : bool) (p q : Z) : t :=
  if p =? 0 then Finite neg 0 0
  else
    let e := Z.max (floor_log2 p q - 52) (-1074) in
    let '(p', q') := scale2 p q e in
    let m := round_half_even p' q' in
    if (0 <=? e) && (2 ^ 1024 <=? m * 2 ^ e) then Inf neg
    else Finite neg m e.

(** The double nearest to [n * 10^E]. *)
Definition of_decimal (neg : bool) (n E : Z) : t :=
  if 0 <=? E then of_ratio neg (n * 10 ^ E) 1
  else of_ratio neg n (10 ^ (- E)).

Fixpoint span_digits (s : string) : string * string :=
  match s with
  | EmptyString => (EmptyString, EmptyString)
  | String c s' =>
      if Py.isdigit c
      then let '(d, r) := span_digits s' in (String c d, r)
      else (EmptyString, s)
  end.

Fixpoint digits_value (acc : Z) (d : string) : Z :=
  match d with
  | EmptyString => acc
  | String c d' => digits_value (10 * acc + Z.of_N (Py.code c - 48)) d'
  end.

Definition take_sign (s : string) : bool * string :=
  match s with
  | String "-" s' => (true, s')
  | String "+" s' => (false, s')
  | _ => (false, s)
  end.

(** Digits with an optional point and an optional exponent, at least
    one digit in the significand and in a started exponent, and nothing
    after: the significand as an integer and the power of ten. *)
Definition parse_number (s : string) : option (Z * Z) :=
  let '(ip, r1) := span_digits s in
  let '(fp, r2) :=
    match r1 with
    | String "." r => span_digits r
    | _ => (EmptyString, r1)
    end in
  if Py.is_empty ip && Py.is_empty fp then None
  else
    let n := digits_value 0 (ip +:+ fp) in
    let shift := Z.of_nat (String.length fp) in
    match r2 with
    | EmptyString => Some (n, - shift)
    | String c r3 =>
        if Ascii.eqb c "e" || Ascii.eqb c "E" then
          let '(eneg, r4) := take_sign r3 in
          let '(ed, r5) := span_digits r4 in
          if Py.is_empty ed || negb (Py.is_empty r5) then None
          else
            let ev := digits_value 0 ed in
            Some (n, (if eneg then - ev else ev) - shift)
        else None
    end.

Definition lower (c : ascii) : ascii :=
  if Py.between 65 90 c then ascii_of_N (Py.code c + 32) else c.

Fixpoint lowercase (s : string) : string :=
  match s with
  | EmptyString => EmptyString
  | String c s' => String (lower c) (lowercase s')
  end.

(** An optional sign, then a number, or [inf], [infinity] or [nan] in
    any case. *)
Definition parse (s : string) : option t :=
  let '(neg, body) := take_sign s in
  match parse_number body with
  | Some (n, E) => Some (of_decimal neg n E)
  | None =>
      let w := lowercase body in
      if String.eqb w "inf" || String.eqb w "infinity" then Some (Inf neg)
      else if String.eqb w "nan" then Some NaN
      else None
  end.

(** Underscores are dropped when each stands between two digits;
    any other underscore makes the literal invalid. *)
Fixpoint drop_underscores (prev : ascii) (s : string) : option string :=
  match s with
  | EmptyString => if Ascii.eqb prev "_" then None else Some EmptyString
  | String c s' =>
      if Ascii.eqb c "_" then
        if Py.isdigit prev then drop_underscores c s' else None
      else if Ascii.eqb prev "_" && negb (Py.isdigit c) then None
      else String c <$> drop_underscores c s'
  end.

(** White space that [float] itself removes at both ends. *)
Definition isspace (c : ascii) : bool :=
  Py.between 9 13 c || (Py.code c =? 32)%N ||
  (Py.code c =? 133)%N || (Py.code c =? 160)%N.

(** [float(s)]: [None] stands for the [ValueError] of an invalid
    literal. *)
Definition of_string (s : string) : option t :=
  drop_underscores "000" (Py.rstrip_by isspace (Py.lstrip_by isspace s))
    ≫= parse.

(** [int(round(x))] *)
Definition round (x : t) : result Z :=
  match x with
  | Finite neg m e =>
      let '(p, q) := scale2 m 1 (- e) in
      let n := round_half_even p q in
      Ok (if neg then - n else n)
  | Inf _ => Raise OverflowError
  | NaN => Raise (ValueError "cannot convert float NaN to integer")
  end.

End Float.

(** ** The [csv] module: [csv.reader] and [csv.DictReader]

    The reader of the [excel] dialect with a semicolon as delimiter: the
    double quote as quote character, doubled inside a quoted field to
    stand for itself, no escape character, not strict.  It is the state machine of CPython 3.11; the
    states of the escape character are left out, no transition of this
    dialect enters them. *)

Module Csv.

Definition LF : ascii := "010".
Definition CR : ascii := "013".
Definition delimiter : ascii := ";".
Definition quotechar : ascii := ascii_of_N 34.
Definition field_limit : N := 131072.

(** The lines of a text file opened with the empty string as [newline]:
    a line ends after LF, CR or CR LF, and keeps its ending. *)
Fixpoint readlines (text : string) : list string :=
  match text with
  | EmptyString => []
  | String c rest =>
      if Ascii.eqb c LF then String c EmptyString :: readlines rest
      else if Ascii.eqb c CR then
        match rest with
        | String d rest' =>
            if Ascii.eqb d LF
            then String c (String d EmptyString) :: readlines rest'
            else String c EmptyString :: readlines rest
        | EmptyString => [String c EmptyString]
        end
      else
        match readlines rest with
        | line :: lines => String c line :: lines
        | [] => [String c EmptyString]
        end
  end.

Inductive state : Type :=
  | START_RECORD
  | START_FIELD
  | IN_FIELD
  | IN_QUOTED_FIELD
  | QUOTE_IN_QUOTED_FIELD
  | EAT_CRNL.

Global Instance state_eq_dec : EqDecision state.
Proof. solve_decision. Defined.

(** [field] holds the characters of the current field, last one first. *)
Record parser : Type := Parser {
  st : state;
  fields : list string;
  field : string;
  field_len : N
}.

Definition parse_reset : parser :=
  Parser START_RECORD [] EmptyString 0.

Definition set_state (s : state) (p : parser) : parser :=
  Parser s (fields p) (field p) (field_len p).

Definition parse_save_field (p : parser) : parser :=
  Parser (st p) (fields p ++ [String.rev (field p)]) EmptyString 0.

Definition parse_add_char (c : ascii) (p : parser) : result parser :=
  if (field_limit <=? field_len p)%N
  then Raise (CsvError "field larger than field limit (131072)")
  else Ok (Parser (st p) (fields p) (String c (field p)) (field_len p + 1)).

Definition is_newline (c : ascii) : bool :=
  Ascii.eqb c LF || Ascii.eqb c CR.

(** One step of the machine; [None] is the end-of-line mark that the
    reader feeds after the last character of every line. *)
Definition parse_process_char (c : option ascii) (p : parser)
  : result parser :=
  let after_field (p : parser) : result parser :=
    Ok (set_state (if c is None then START_RECORD else EAT_CRNL)
                  (parse_save_field p)) in
  let start_field (p : parser) : result parser :=
    match c with
    | None => after_field p
    | Some ch =>
        if is_newline ch then after_field p
        else if Ascii.eqb ch quotechar then Ok (set_state IN_QUOTED_FIELD p)
        else if Ascii.eqb ch delimiter then Ok (parse_save_field p)
        else set_state IN_FIELD <$> parse_add_char ch p
    end in
  match st p with
  | START_RECORD =>
      match c with
      | None => Ok p
      | Some ch =>
          if is_newline ch then Ok (set_state EAT_CRNL p)
          else start_field (set_state START_FIELD p)
      end
  | START_FIELD => start_field p
  | IN_FIELD =>
      match c with
      | None => after_field p
      | Some ch =>
          if is_newline ch then after_field p
          else if Ascii.eqb ch delimiter
          then Ok (set_state START_FIELD (parse_save_field p))
          else parse_add_char ch p
      end
  | IN_QUOTED_FIELD =>
      match c with
      | None => Ok p
      | Some ch =>
          if Ascii.eqb ch quotechar
          then Ok (set_state QUOTE_IN_QUOTED_FIELD p)
          else parse_add_char ch p
      end
  | QUOTE_IN_QUOTED_FIELD =>
      match c with
      | None => after_field p
      | Some ch =>
          if Ascii.eqb ch quotechar
          then set_state IN_QUOTED_FIELD <$> parse_add_char ch p
          else if Ascii.eqb ch delimiter
          then Ok (set_state START_FIELD (parse_save_field p))
          else if is_newline ch then after_field p
          else set_state IN_FIELD <$> parse_add_char ch p
      end
  | EAT_CRNL =>
      match c with
      | None => Ok (set_state START_RECORD p)
      | Some ch =>
          if is_newline ch then Ok p
          else Raise (CsvError "new-line character seen in unquoted field - do you need to open the file with newline=''?")
      end
  end.

Fixpoint feed_line (line : string) (p : parser) : result parser :=
  match line with
  | EmptyString => parse_process_char None p
  | String c line' => parse_process_char (Some c) p ≫= feed_line line'
  end.

(** The records the reader yields, in order, and the [csv.Error] that
    ends the iteration if there is one.  A record is complete when the
    machine is back in [START_RECORD] at the end of a line; at the end
    of the input an open quoted field is closed. *)
Fixpoint reader_from (p : parser) (lines : list string)
  : list (list string) * option exn :=
  match lines with
  | [] =>
      if negb (field_len p =? 0)%N || bool_decide (st p = IN_QUOTED_FIELD)
      then ([fields (parse_save_field p)], None)
      else ([], None)
  | line :: rest =>
      match feed_line line p with
      | Raise e => ([], Some e)
      | Ok p' =>
          if bool_decide (st p' = START_RECORD)
          then let '(records, e) := reader_from parse_reset rest in
               (fields p' :: records, e)
          else reader_from p' rest
      end
  end.

Definition reader (text : string) : list (list string) * option exn :=
  reader_from parse_reset (readlines text).

(** ** [DictReader.__next__]: the dictionary of one record

    [dict(zip(fieldnames, row))], then [None] under every field name
    past the end of a short row.  The surplus of a long row goes under
    the key [None], which no lookup of the script reaches. *)
Definition dict_row (fieldnames row : list string)
  : gmap string (option string) :=
  let d := foldl (λ d kv, <[kv.1 := Some kv.2]> d) ∅ (zip fieldnames row) in
  foldl (λ d key, <[key := None]> d) d (drop (length row) fieldnames).

(** [row.get(key, default)] *)
Definition get (row : gmap string (option string)) (key : string)
    (default : option string) : option string :=
  match row !! key with
  | Some v => v
  | None => default
  end.

End Csv.

Definition ISSN_DELIMITER : ascii := ",".

Definition issn_last (c : ascii) : bool :=
  Py.isdigit c || Ascii.eqb c "X" || Ascii.eqb c "x".

(** [re.compile(r"^[0-9]{4}-?[0-9]{3}[0-9Xx]$")] *)
Definition ISSN_PATTERN : list Re.atom :=
  Re.repeat 4 (Re.Class Py.isdigit) ++ [Re.Optional "-"] ++
  Re.repeat 3 (Re.Class Py.isdigit) ++ [Re.Class issn_last; Re.Dollar].

Definition is_valid_issn (value : string) : bool :=
  Re.matches ISSN_PATTERN value.

Definition normalize_issn (value : string) : string :=
  Py.replace " " EmptyString value.

Definition parse_issns (issn_field : option string) : list string :=
  match issn_field with
  | None => []
  | Some field =>
      if negb (Py.truthy issn_field) then []
      else
        omap (λ part,
                let cleaned := Py.strip part in
                if Py.truthy (Some cleaned) && is_valid_issn cleaned
                then Some (normalize_issn cleaned)
                else None)
             (Py.split ISSN_DELIMITER field)
  end.

(** [value.strip()], the removal of blanks and the choice of the decimal
    separator: the text handed to [float]. *)
Definition sjr_literal (value : string) : string :=
  let cleaned := Py.replace " " EmptyString (Py.strip value) in
  if Py.contains "," cleaned && Py.contains "." cleaned then
    Py.replace "," "." (Py.replace "." EmptyString cleaned)
  else if Py.contains "," cleaned then Py.replace "," "." cleaned
  else cleaned.

(** [value.strip()] on [None] raises [AttributeError]; the [ValueError] of
    [float] is caught, what [round] raises is not. *)
Definition parse_sjr (value : option string) : result (option Z) :=
  match value with
  | None => Raise AttributeError
  | Some v =>
      if negb (Py.truthy (Some (Py.strip v))) then Ok None
      else
        match Float.of_string (sjr_literal v) with
        | None => Ok None
        | Some numeric => n ← Float.round numeric; Ok (Some n)
        end
  end.

(** ** [load_sjr_map] *)

(** The body of the inner loop: one ISSN of a row whose score is
    [sjr_value]. *)
Definition record_score (sjr_map : gmap string Z) (issn : string)
    (sjr_value : Z) : gmap string Z :=
  match sjr_map !! issn with
  | Some stored =>
      if bool_decide (stored ≠ sjr_value)
      then <[issn := Z.max stored sjr_value]> sjr_map
      else <[issn := sjr_value]> sjr_map
  | None => <[issn := sjr_value]> sjr_map
  end.

(** The body of the loop over the rows. *)
Definition process_row (sjr_map : gmap string Z)
    (row : gmap string (option string)) : result (gmap string Z) :=
  issn_field ← Py.strip_value (Csv.get row "Issn" (Some EmptyString));
  sjr_value ← parse_sjr (Csv.get row "SJR" (Some EmptyString));
  match sjr_value with
  | None => Ok sjr_map
  | Some score =>
      Ok (foldl (λ m issn, record_score m issn score) sjr_map
                (parse_issns (Some issn_field)))
  end.

(** The loop over the records that follow the header; [DictReader] passes
    over empty records.  [stop] is the [csv.Error] that ends the
    iteration, if any. *)
Fixpoint load_rows (fieldnames : list string) (sjr_map : gmap string Z)
    (records : list (list string)) (stop : option exn)
  : result (gmap string Z) :=
  match records with
  | [] =>
      match stop with
      | Some e => Raise e
      | None => Ok sjr_map
      end
  | [] :: rest => load_rows fieldnames sjr_map rest stop
  | record :: rest =>
      process_row sjr_map (Csv.dict_row fieldnames record)
        ≫= λ m, load_rows fieldnames m rest stop
  end.

Definition header_missing : string := "CSV header is missing.".
Definition columns_missing : string :=
  "CSV header missing required columns: Issn, SJR".

(** What follows the opening of the file: [read] is what [csv.reader]
    yields for its text. *)
Definition load_records (read : list (list string) * option exn)
  : result (gmap string Z) :=
  match read with
  | ([], Some e) => Raise e
  | ([], None) => Raise (ValueError header_missing)
  | (fieldnames :: records, stop) =>
      if bool_decide ("Issn" ∉ fieldnames ∨ "SJR" ∉ fieldnames)
      then Raise (ValueError columns_missing)
      else load_rows fieldnames ∅ records stop
  end.

(** A file system holds the decoded text of every regular file, by
    path. *)
Definition load_sjr_map (fs : gmap string string) (csv_path : string)
  : result (gmap string Z) :=
  match fs !! csv_path with
  | None => Raise (FileNotFoundError ("CSV file not found: " +:+ csv_path))
  | Some text => load_records (Csv.reader text)
  end.

(** ** [write_js_module] *)

Definition entry_line (sjr_map : gmap string Z) (issn : string) : string :=
  "    " +:+ String Csv.quotechar issn +:+ String Csv.quotechar ": "
  +:+ Py.str_int (sjr_map !!! issn) +:+ ",".

Definition js_lines (sjr_map : gmap string Z) : list string :=
  [ "// Scimago SJR mapping generated from scimagojr_2024.csv.";
    EmptyString;
    "export const SCIMAGO_SJR = {" ] ++
  (entry_line sjr_map <$> Py.sorted (map_to_list sjr_map).*1) ++
  [ "};"; EmptyString ].

(** The text handed to [write_text]. *)
Definition js_text (sjr_map : gmap string Z) : string :=
  Py.join (String Csv.LF EmptyString) (js_lines sjr_map).

Definition write_js_module (sjr_map : gmap string Z) (output_path : string)
    (fs : gmap string string) : gmap string string :=
  <[output_path := js_text sjr_map]> fs.

(** ** [main]

    [args] is what [parser.parse_args()] returned: the two paths of the
    command line.  The result is the file system the run leaves and what the
    run ends with, the exit status or the exception that escapes. *)
Record Namespace : Type := { input : string; output : string }.

Definition main (args : Namespace) (fs : gmap string string)
  : gmap string string * result Z :=
  match load_sjr_map fs (input args) with
  | Raise e => (fs, Raise e)
  | Ok sjr_map => (write_js_module sjr_map (output args) fs, Ok 0)
  end.

(** ** Definitions that follow the words of the specification *)

(** The unconditional update: always store the maximum of the existing
    value (the incoming score when the key is absent) and the incoming
    score. *)
Definition store_maximum (sjr_map : gmap string Z) (issn : string)
    (sjr_value : Z) : gmap string Z :=
  <[issn := Z.max (default sjr_value (sjr_map !! issn)) sjr_value]> sjr_map.

(** A string without white space. *)
Definition no_whitespace (s : string) : Prop :=
  Py.all_chars (λ c, negb (Py.isspace c)) s = true.

(** Four digits, an optional hyphen, three digits, and a last character
    that is a digit or the letter X in either case. *)
Definition issn_shaped_tail (rest : string) : bool :=
  match rest with
  | String e (String f (String g (String h EmptyString))) =>
      Py.isdigit e && Py.isdigit f && Py.isdigit g &&
      (Py.isdigit h || Ascii.eqb h "X" || Ascii.eqb h "x")
  | _ => false
  end.

Definition issn_shaped (piece : string) : bool :=
  match piece with
  | String a (String b (String c (String d rest))) =>
      Py.isdigit a && Py.isdigit b && Py.isdigit c && Py.isdigit d &&
      match rest with
      | String sep rest' =>
          if Ascii.eqb sep "-" then issn_shaped_tail rest'
          else issn_shaped_tail rest
      | EmptyString => false
      end
  | _ => false
  end.

(** Whether a newline is the last character. *)
Fixpoint ends_with_newline (s : string) : bool :=
  match s with
  | EmptyString => false
  | String c s' =>
      if Py.is_empty s' then Ascii.eqb c Csv.LF else ends_with_newline s'
  end.

(** What the loop of [load_sjr_map] sees of a row: its score when there
    is one, and its ISSNs. *)
Definition row_score (row : gmap string (option string)) : option Z :=
  match parse_sjr (Csv.get row "SJR" (Some EmptyString)) with
  | Ok (Some score) => Some score
  | _ => None
  end.

Definition row_issns (row : gmap string (option string)) : list string :=
  match Py.strip_value (Csv.get row "Issn" (Some EmptyString)) with
  | Ok issn_field => parse_issns (Some issn_field)
  | Raise _ => []
  end.

(** The scores of the rows that carry [issn], rows without a score left
    out. *)
Definition observed_scores (issn : string)
    (rows : list (gmap string (option string))) : list Z :=
  omap (λ row, if bool_decide (issn ∈ row_issns row)
               then row_score row else None) rows.

(** The rows [DictReader] yields for a text. *)
Definition csv_rows (text : string) : list (gmap string (option string)) :=
  match (Csv.reader text).1 with
  | [] => []
  | fieldnames :: records =>
      Csv.dict_row fieldnames <$> List.filter (λ r, negb (bool_decide (r = []))) records
  end.

(** The shape of the output artifact, for an indentation [indent]: header
    comment, blank line, opening line, one line per entry in ascending key
    order, closing line, every line ended by one newline. *)
Definition unlines (lines : list string) : string :=
  foldr (λ line text, line +:+ String Csv.LF text) EmptyString lines.

Definition entry_text (indent : string) (entry : string * Z) : string :=
  indent +:+ String Csv.quotechar entry.1 +:+ String Csv.quotechar ": "
  +:+ Py.str_int entry.2 +:+ ",".

Definition layout (indent : string) (sjr_map : gmap string Z)
    (text : string) : Prop :=
  ∃ entries : list (string * Z),
    (∀ k v, (k, v) ∈ entries ↔ sjr_map !! k = Some v) ∧
    NoDup entries.*1 ∧
    Sorted String.le entries.*1 ∧
    text = unlines
             ([ "// Scimago SJR mapping generated from scimagojr_2024.csv.";
                EmptyString;
                "export const SCIMAGO_SJR = {" ] ++
              (entry_text indent <$> entries) ++ [ "};" ]).

(** The three-row export of the end-to-end example, every cell of a data
    row quoted, every line ended by [eol]. *)
Definition quoted (cell : string) : string :=
  String Csv.quotechar cell +:+ String Csv.quotechar EmptyString.

Definition example_csv (eol : string) : string :=
  "Issn;SJR" +:+ eol +:+
  quoted "1234-5678" +:+ ";" +:+ quoted "3,2" +:+ eol +:+
  quoted "1234-5678, 0987-654X" +:+ ";" +:+ quoted "5" +:+ eol +:+
  quoted "bad-issn" +:+ ";" +:+ quoted "1" +:+ eol.

Definition LF : string := String Csv.LF EmptyString.
Definition CRLF : string := String Csv.CR LF.

(** Two rows for one ISSN, with the scores 4 and 7. *)
Definition duplicate_csv : string :=
  "Issn;SJR" +:+ LF +:+ "1234-5678;4" +:+ LF +:+ "1234-5678;7" +:+ LF.

(** [n] is the maximum of [scores]: one of them, and none is larger. *)
Definition maximum_of (n : Z) (scores : list Z) : Prop :=
  n ∈ scores ∧ ∀ v, v ∈ scores → v ≤ n.

(** What the loop of [load_sjr_map] keeps: a key holds the maximum of the
    scores of the rows read so far that carry it, and a key that no scored
    row carries is not in the dictionary. *)
Definition scores_recorded (sjr_map : gmap string Z)
    (rows : list (gmap string (option string))) : Prop :=
  ∀ issn,
    match sjr_map !! issn with
    | Some n => maximum_of n (observed_scores issn rows)
    | None => observed_scores issn rows = []
    end.

(** ** Predicates of the further properties *)

(** [s] without the newline that ends it, if one does. *)
Fixpoint without_final_newline (s : string) : string :=
  match s with
  | EmptyString => EmptyString
  | String c s' =>
      if Py.is_empty s' && Ascii.eqb c Csv.LF then EmptyString
      else String c (without_final_newline s')
  end.

(** A score cell that [float] rejects or reads as a finite number. *)
Definition finite_score (value : string) : bool :=
  match Float.of_string (sjr_literal value) with
  | Some (Float.Finite _ _ _) | None => true
  | Some _ => false
  end.

(** A record that is empty, or reaches every column of the header and
    carries a score cell that is not infinite and not a NaN. *)
Definition complete_record (fieldnames record : list string) : bool :=
  bool_decide (record = []) ||
  ((length fieldnames <=? length record)%nat &&
   match Csv.get (Csv.dict_row fieldnames record) "SJR" (Some EmptyString) with
   | Some value => finite_score value
   | None => false
   end).

(** A row both of whose cells are strings, with a score cell that is not
    infinite and not a NaN: the rows the loop gets through. *)
Definition row_readable (row : gmap string (option string)) : bool :=
  match Csv.get row "Issn" (Some EmptyString),
        Csv.get row "SJR" (Some EmptyString) with
  | Some _, Some value => finite_score value
  | _, _ => false
  end.

(** The characters of an ISSN: digits, the hyphen and the letter X. *)
Definition issn_char (c : ascii) : bool :=
  Py.isdigit c || Ascii.eqb c "-" || Ascii.eqb c "X" || Ascii.eqb c "x".

(** ** The map update *)

Lemma record_score_insert (sjr_map : gmap string Z) (issn : string)
    (sjr_value : Z) :
  record_score sjr_map issn sjr_value
  = <[issn := Z.max (default sjr_value (sjr_map !! issn)) sjr_value]> sjr_map.
Proof.
  unfold record_score.
  destruct (sjr_map !! issn) as [stored|]; simpl.
  - case_bool_decide as Hne; [done|].
    subst stored. by rewrite Z.max_id.
  - by rewrite Z.max_id.
Qed.

Lemma record_score_lookup (sjr_map : gmap string Z) (issn k : string)
    (sjr_value : Z) :
  record_score sjr_map issn sjr_value !! k =
    if decide (issn = k)
    then Some (Z.max (default sjr_value (sjr_map !! issn)) sjr_value)
    else sjr_map !! k.
Proof. by rewrite record_score_insert, lookup_insert. Qed.

(** C10. The conditional update of the loop (assign when the key is absent
    or holds the incoming score, else store the maximum) equals, on every
    dictionary, key and score, the unconditional update that always stores
    the maximum. *)
Theorem record_score_store_maximum (sjr_map : gmap string Z) (issn : string)
    (sjr_value : Z) :
  record_score sjr_map issn sjr_value = store_maximum sjr_map issn sjr_value.
Proof.
  unfold store_maximum.
  destruct (sjr_map !! issn) as [stored|] eqn:Hstored.
  - rewrite record_score_insert, Hstored. reflexivity.
  - rewrite record_score_insert, Hstored. reflexivity.
Qed.

(** ** ISSN normalization *)

Lemma replace_no_occurrence (old : ascii) (new s : string) :
  Py.contains old s = false → Py.replace old new s = s.
Proof.
  induction s as [|c s IH]; simpl; [done|].
  intros [Hc Hs]%orb_false_iff. rewrite Hc. by rewrite IH.
Qed.

Lemma no_whitespace_no_blank (s : string) :
  no_whitespace s → Py.contains " " s = false.
Proof.
  unfold no_whitespace.
  induction s as [|c s IH]; simpl; [done|].
  intros [Hc Hs]%andb_true_iff. rewrite (IH Hs), orb_false_r.
  destruct (Ascii.eqb_spec c " ") as [->|]; [discriminate Hc|done].
Qed.

(** C9. A string that contains no white space is returned unchanged by
    [normalize_issn]. *)
Theorem normalize_issn_no_whitespace (value : string) :
  no_whitespace value → normalize_issn value = value.
Proof.
  intros H. unfold normalize_issn.
  by apply replace_no_occurrence, no_whitespace_no_blank.
Qed.

Lemma normalize_issn_no_whitespace_witness :
  no_whitespace "1234-567X" ∧ normalize_issn "1234-567X" = "1234-567X".
Proof.
  split; [reflexivity|].
  apply (normalize_issn_no_whitespace "1234-567X"). reflexivity.
Defined.

(** ** The score normalizer *)

(** C2, as the claim states it, fails: the literal of ["1.234,5"] is
    [1234.5], a tie that [round] sends to the even neighbour 1234. *)
Lemma parse_sjr_claimed_examples_fail :
  ¬ (parse_sjr (Some "8,6") = Ok (Some 9) ∧
     parse_sjr (Some "1.234,5") = Ok (Some 1235)).
Proof. intros [_ H]. vm_compute in H. discriminate H. Qed.

(** C2, amended. The normalizer maps ["8,6"] to 9 and ["1.234,5"] to 1234:
    periods are stripped as thousands separators when both separators are
    present, the comma becomes the decimal point, the literal is parsed and
    rounded to the nearest integer, ties to even. *)
Theorem parse_sjr_examples :
  sjr_literal "8,6" = "8.6" ∧
  parse_sjr (Some "8,6") = Ok (Some 9) ∧
  sjr_literal "1.234,5" = "1234.5" ∧
  Float.of_string "1234.5" = Some (Float.Finite false 5429388417957888 (-42)) ∧
  parse_sjr (Some "1.234,5") = Ok (Some 1234).
Proof. repeat split; vm_compute; reflexivity. Qed.

(** The absent result is returned exactly when the trimmed field is empty
    or [float] rejects the literal. *)
Lemma parse_sjr_absent_iff (value : string) :
  parse_sjr (Some value) = Ok None ↔
  Py.strip value = EmptyString ∨ Float.of_string (sjr_literal value) = None.
Proof.
  unfold parse_sjr. simpl.
  destruct (Py.strip value) as [|c rest] eqn:Hstrip; simpl.
  - split; [by left|done].
  - destruct (Float.of_string (sjr_literal value)) as [numeric|].
    + split.
      * destruct (Float.round numeric); discriminate.
      * intros [H|H]; discriminate H.
    + split; [by right|done].
Qed.

(** C6. [parse_sjr] raises on string input: [float] accepts the spellings
    of infinity and NaN and overflows to infinity past the largest double,
    and [round] raises on these values outside the [try] block. *)
Theorem parse_sjr_raises :
  parse_sjr (Some "inf") = Raise OverflowError ∧
  parse_sjr (Some "1e999") = Raise OverflowError ∧
  parse_sjr (Some "nan") =
    Raise (ValueError "cannot convert float NaN to integer").
Proof. repeat split; vm_compute; reflexivity. Qed.

(** ** Rows without a score *)

(** A row whose two cells are strings and whose score is absent leaves the
    dictionary as it is. *)
Lemma process_row_absent_score (sjr_map : gmap string Z)
    (row : gmap string (option string)) (issn_text : string) :
  Csv.get row "Issn" (Some EmptyString) = Some issn_text →
  parse_sjr (Csv.get row "SJR" (Some EmptyString)) = Ok None →
  process_row sjr_map row = Ok sjr_map.
Proof.
  intros Hissn Hsjr. unfold process_row. rewrite Hissn, Hsjr. reflexivity.
Qed.

(** C7. A record shorter than the header leaves [None] under the missing
    column names, and [strip] on [None] raises: with the header [SJR;Issn]
    the record [abc] has an unparseable score, yet the row is not skipped,
    the run ends with [AttributeError]. *)
Theorem process_row_short_record_raises :
  let row := Csv.dict_row ["SJR"; "Issn"] ["abc"] in
  Csv.get row "SJR" (Some EmptyString) = Some "abc" ∧
  parse_sjr (Some "abc") = Ok None ∧
  (∀ sjr_map, process_row sjr_map row = Raise AttributeError) ∧
  (∀ path,
     load_sjr_map {[ path := "SJR;Issn" +:+ String Csv.LF ("abc" +:+ String Csv.LF EmptyString) ]} path
     = Raise AttributeError).
Proof.
  repeat split; try (vm_compute; reflexivity).
  intros path. unfold load_sjr_map. rewrite lookup_singleton_eq.
  vm_compute. reflexivity.
Qed.

(** ** Reading the file *)

(** C4. The three-row export with header [Issn;SJR] loads as the
    dictionary with 5 under both valid ISSNs: the invalid token is
    dropped and the shared ISSN keeps the maximum of 3 and 5. *)
Theorem load_sjr_map_example (path : string) :
  load_sjr_map {[ path := example_csv LF ]} path
    = Ok {[ "0987-654X" := 5; "1234-5678" := 5 ]} ∧
  load_sjr_map {[ path := example_csv CRLF ]} path
    = Ok {[ "0987-654X" := 5; "1234-5678" := 5 ]}.
Proof.
  unfold load_sjr_map. rewrite !lookup_singleton_eq.
  split; vm_compute; reflexivity.
Qed.

(** C8. [load_sjr_map] raises [FileNotFoundError] when the path does not
    exist, and [ValueError] when the reader yields no header row or the
    header lacks [Issn] or [SJR] as exact strings; whatever records follow
    the header, none is processed and no dictionary is returned. *)
Theorem load_sjr_map_failures (fs : gmap string string) (csv_path : string) :
  (fs !! csv_path = None →
   load_sjr_map fs csv_path
     = Raise (FileNotFoundError ("CSV file not found: " +:+ csv_path))) ∧
  (∀ text, fs !! csv_path = Some text →
     Csv.reader text = ([], None) →
     load_sjr_map fs csv_path = Raise (ValueError header_missing)) ∧
  (∀ text fieldnames records stop, fs !! csv_path = Some text →
     Csv.reader text = (fieldnames :: records, stop) →
     "Issn" ∉ fieldnames ∨ "SJR" ∉ fieldnames →
     load_sjr_map fs csv_path = Raise (ValueError columns_missing)).
Proof.
  unfold load_sjr_map. repeat split.
  - by intros ->.
  - by intros text -> ->.
  - intros text fieldnames records stop -> -> Hmissing. simpl.
    by rewrite bool_decide_eq_true_2.
Qed.

Lemma load_sjr_map_failures_witness :
  load_sjr_map ∅ "scimagojr_2024.csv"
    = Raise (FileNotFoundError "CSV file not found: scimagojr_2024.csv") ∧
  load_sjr_map {[ "empty.csv" := EmptyString ]} "empty.csv"
    = Raise (ValueError header_missing) ∧
  load_sjr_map {[ "lower.csv" := "issn;SJR" +:+ LF +:+ "1234-5678;5" +:+ LF ]}
      "lower.csv"
    = Raise (ValueError columns_missing).
Proof.
  split; [|split].
  - apply (proj1 (load_sjr_map_failures ∅ "scimagojr_2024.csv")).
    reflexivity.
  - apply (proj1 (proj2 (load_sjr_map_failures
                           {[ "empty.csv" := EmptyString ]} "empty.csv"))
             EmptyString); reflexivity.
  - apply (proj2 (proj2 (load_sjr_map_failures
                           {[ "lower.csv" := "issn;SJR" +:+ LF +:+ "1234-5678;5" +:+ LF ]}
                           "lower.csv"))
             ("issn;SJR" +:+ LF +:+ "1234-5678;5" +:+ LF)
             ["issn"; "SJR"] [["1234-5678"; "5"]] None).
    + reflexivity.
    + vm_compute. reflexivity.
    + left. intros H. vm_compute in H. by apply elem_of_cons in H as [H|[H|H%elem_of_nil]%elem_of_cons].
Defined.

(** ** The ISSN field parser *)

Lemma rstrip_by_last (p : ascii → bool) (s : string) :
  p Csv.LF = true → ends_with_newline (Py.rstrip_by p s) = false.
Proof.
  intros Hlf. induction s as [|c s IH]; simpl; [done|].
  destruct (p c) eqn:Hc; simpl.
  - destruct (Py.rstrip_by p s) as [|d r] eqn:Hr; simpl; [done|].
    exact IH.
  - destruct (Py.rstrip_by p s) as [|d r] eqn:Hr; simpl; [|exact IH].
    destruct (Ascii.eqb_spec c Csv.LF) as [->|]; [congruence|done].
Qed.

Lemma strip_not_newline_ended (s : string) :
  ends_with_newline (Py.strip s) = false.
Proof. by apply rstrip_by_last. Qed.

Lemma hyphen_not_digit : Py.isdigit "-" = false.
Proof. reflexivity. Qed.

Lemma matches_tail (rest : string) :
  ends_with_newline rest = false →
  Re.matches (Re.repeat 3 (Re.Class Py.isdigit) ++ [Re.Class issn_last; Re.Dollar])
             rest
  = issn_shaped_tail rest.
Proof.
  destruct rest as [|e [|f [|g [|h [|n tail]]]]];
    cbn -[Ascii.eqb Py.isdigit issn_last];
    rewrite ?andb_false_r; try reflexivity.
  - intros _. unfold issn_last. by rewrite !andb_true_r, !andb_assoc.
  - intros Hnl. destruct tail; cbn -[Ascii.eqb Py.isdigit issn_last] in *.
    + change "010"%char with Csv.LF. by rewrite Hnl, !andb_false_r.
    + by rewrite !andb_false_r.
Qed.

Lemma matches_class (p : ascii → bool) (r : list Re.atom) (c : ascii)
    (s : string) :
  Re.matches (Re.Class p :: r) (String c s) = p c && Re.matches r s.
Proof. reflexivity. Qed.

Lemma matches_optional (c d : ascii) (r : list Re.atom) (s : string) :
  Re.matches (Re.Optional c :: r) (String d s)
  = (Ascii.eqb d c && Re.matches r s) || Re.matches r (String d s).
Proof. reflexivity. Qed.

Lemma is_valid_issn_shaped (value : string) :
  ends_with_newline value = false →
  is_valid_issn value = issn_shaped value.
Proof.
  unfold is_valid_issn, ISSN_PATTERN. intros Hnl.
  destruct value as [|a [|b [|c [|d rest]]]];
    try (cbn -[Ascii.eqb Py.isdigit issn_last];
         rewrite ?andb_false_r; reflexivity).
  change (Re.repeat 4 (Re.Class Py.isdigit) ++ [Re.Optional "-"] ++
          Re.repeat 3 (Re.Class Py.isdigit) ++ [Re.Class issn_last; Re.Dollar])
    with (Re.Class Py.isdigit :: Re.Class Py.isdigit :: Re.Class Py.isdigit
          :: Re.Class Py.isdigit :: Re.Optional "-"
          :: (Re.repeat 3 (Re.Class Py.isdigit) ++
              [Re.Class issn_last; Re.Dollar])).
  rewrite !matches_class. unfold issn_shaped.
  rewrite !andb_assoc. f_equal.
  destruct rest as [|sep rest]; [reflexivity|].
  rewrite matches_optional.
  assert (ends_with_newline (String sep rest) = false) as Hnl' by exact Hnl.
  rewrite (matches_tail (String sep rest)) by exact Hnl'.
  destruct (Ascii.eqb_spec sep "-") as [->|Hsep].
  - assert (issn_shaped_tail (String "-" rest) = false) as ->.
    { destruct rest as [|f [|g [|h [|n tail]]]]; reflexivity. }
    rewrite orb_false_r, andb_true_l. apply matches_tail.
    destruct rest; [reflexivity|exact Hnl'].
  - by rewrite andb_false_l, orb_false_l.
Qed.

Lemma digit_not_space (c : ascii) :
  Py.isdigit c = true → Py.isspace c = false.
Proof.
  destruct c as [[] [] [] [] [] [] [] []]; vm_compute; congruence.
Qed.

Lemma issn_last_not_space (c : ascii) :
  Py.isdigit c || Ascii.eqb c "X" || Ascii.eqb c "x" = true →
  Py.isspace c = false.
Proof.
  destruct c as [[] [] [] [] [] [] [] []]; vm_compute; congruence.
Qed.

Lemma issn_shaped_tail_no_whitespace (rest : string) :
  issn_shaped_tail rest = true → no_whitespace rest.
Proof.
  unfold no_whitespace.
  destruct rest as [|e [|f [|g [|h [|n tail]]]]]; try discriminate.
  cbn -[Py.isdigit Py.isspace Ascii.eqb].
  intros [[[He Hf]%andb_true_iff Hg]%andb_true_iff Hh]%andb_true_iff.
  rewrite (digit_not_space e He), (digit_not_space f Hf),
    (digit_not_space g Hg), (issn_last_not_space h Hh).
  reflexivity.
Qed.

Lemma issn_shaped_no_whitespace (piece : string) :
  issn_shaped piece = true → no_whitespace piece.
Proof.
  destruct piece as [|a [|b [|c [|d rest]]]]; try discriminate.
  unfold issn_shaped.
  intros [[[[Ha Hb]%andb_true_iff Hc]%andb_true_iff Hd]%andb_true_iff Hrest]%andb_true_iff.
  unfold no_whitespace. cbn -[Py.isdigit Py.isspace Ascii.eqb].
  rewrite (digit_not_space a Ha), (digit_not_space b Hb),
    (digit_not_space c Hc), (digit_not_space d Hd).
  cbn -[Py.isdigit Py.isspace Ascii.eqb].
  destruct rest as [|sep rest]; [discriminate|].
  destruct (Ascii.eqb_spec sep "-") as [->|Hsep].
  - apply issn_shaped_tail_no_whitespace in Hrest.
    cbn -[Py.isdigit Py.isspace Ascii.eqb]. exact Hrest.
  - by apply issn_shaped_tail_no_whitespace in Hrest.
Qed.

Lemma issn_shaped_not_empty (piece : string) :
  issn_shaped piece = true → Py.is_empty piece = false.
Proof. by destruct piece. Qed.

Lemma omap_pointwise {A B : Type} (f g : A → option B) (l : list A) :
  (∀ x, f x = g x) → omap f l = omap g l.
Proof.
  intros Hfg. induction l as [|x l IH]; [reflexivity|].
  cbn. by rewrite Hfg, IH.
Qed.

(** What [parse_issns] does with one piece of the split field. *)
Lemma parse_piece (part : string) :
  (if Py.truthy (Some (Py.strip part)) && is_valid_issn (Py.strip part)
   then Some (normalize_issn (Py.strip part)) else None)
  = (if issn_shaped (Py.strip part) then Some (Py.strip part) else None).
Proof.
  rewrite is_valid_issn_shaped by apply strip_not_newline_ended.
  destruct (issn_shaped (Py.strip part)) eqn:Hshape.
  - simpl. rewrite (issn_shaped_not_empty _ Hshape). simpl.
    unfold normalize_issn.
    by rewrite replace_no_occurrence
      by apply no_whitespace_no_blank, issn_shaped_no_whitespace, Hshape.
  - by rewrite andb_false_r.
Qed.

(** C5. [parse_issns] splits the field on commas, trims every piece, keeps
    the trimmed piece exactly when it has the ISSN shape and drops every
    other piece; a kept piece has no white space left and keeps its hyphen,
    so normalization returns it as it is; an empty or missing field gives
    the empty list. *)
Theorem parse_issns_spec :
  parse_issns None = [] ∧
  parse_issns (Some EmptyString) = [] ∧
  (∀ issn_field : string,
     parse_issns (Some issn_field)
     = omap (λ piece, if issn_shaped (Py.strip piece)
                      then Some (Py.strip piece) else None)
            (Py.split "," issn_field)) ∧
  (∀ piece : string,
     issn_shaped piece = true →
     no_whitespace piece ∧ normalize_issn piece = piece).
Proof.
  repeat split.
  - intros issn_field. unfold parse_issns.
    destruct issn_field as [|c rest]; [reflexivity|].
    simpl negb. cbv iota.
    change ISSN_DELIMITER with ","%char.
    apply omap_pointwise. intros part. cbv zeta. apply parse_piece.
  - by apply issn_shaped_no_whitespace.
  - unfold normalize_issn.
    by apply replace_no_occurrence, no_whitespace_no_blank,
      issn_shaped_no_whitespace.
Qed.

(** ** The maximum of the observed scores *)

Lemma fold_record_score_lookup (issns : list string)
    (sjr_map : gmap string Z) (score : Z) (k : string) :
  foldl (λ m issn, record_score m issn score) sjr_map issns !! k =
    if bool_decide (k ∈ issns)
    then Some (Z.max (default score (sjr_map !! k)) score)
    else sjr_map !! k.
Proof.
  revert sjr_map. induction issns as [|i issns IH]; intros sjr_map.
  - reflexivity.
  - simpl foldl. rewrite IH, record_score_lookup.
    destruct (decide (i = k)) as [->|Hne].
    + rewrite (bool_decide_true (k ∈ k :: issns)) by left.
      case_bool_decide; simpl; [f_equal; lia|reflexivity].
    + case_bool_decide as Hin.
      * by rewrite bool_decide_true by by right.
      * rewrite bool_decide_false; [done|].
        by intros [?|?]%elem_of_cons.
Qed.

Lemma observed_scores_snoc (issn : string)
    (rows : list (gmap string (option string)))
    (row : gmap string (option string)) :
  observed_scores issn (rows ++ [row]) =
    observed_scores issn rows ++
    (if bool_decide (issn ∈ row_issns row)
     then option_list (row_score row) else []).
Proof.
  unfold observed_scores. rewrite omap_app. f_equal.
  cbn. by destruct (bool_decide _), (row_score row).
Qed.

Lemma process_row_scores (sjr_map sjr_map' : gmap string Z)
    (row : gmap string (option string))
    (rows : list (gmap string (option string))) :
  process_row sjr_map row = Ok sjr_map' →
  scores_recorded sjr_map rows →
  scores_recorded sjr_map' (rows ++ [row]).
Proof.
  unfold process_row.
  intros Hrow Hrec issn. rewrite observed_scores_snoc.
  unfold row_score, row_issns.
  destruct (Py.strip_value _) as [issn_field|e]; [|discriminate Hrow].
  destruct (parse_sjr _) as [[score|]|e]; simplify_eq/=.
  - rewrite fold_record_score_lookup. specialize (Hrec issn).
    case_bool_decide as Hin.
    + destruct (sjr_map !! issn) as [n|]; simpl.
      * destruct Hrec as [Hn Hmax]. split.
        -- apply elem_of_app.
           destruct (Z.max_spec n score) as [[_ ->]|[_ ->]];
             [right; by left|by left].
        -- intros v [Hv|Hv%list_elem_of_singleton]%elem_of_app;
             [apply Hmax in Hv|]; lia.
      * rewrite Hrec, Z.max_id. split; [by left|].
        intros v Hv%list_elem_of_singleton. lia.
    + rewrite app_nil_r. exact Hrec.
  - specialize (Hrec issn).
    by destruct (bool_decide (issn ∈ _)); rewrite app_nil_r.
Qed.

Lemma load_rows_scores (fieldnames : list string)
    (records : list (list string)) (stop : option exn)
    (sjr_map sjr_map' : gmap string Z)
    (rows : list (gmap string (option string))) :
  load_rows fieldnames sjr_map records stop = Ok sjr_map' →
  scores_recorded sjr_map rows →
  scores_recorded sjr_map'
    (rows ++ (Csv.dict_row fieldnames <$>
              List.filter (λ r, negb (bool_decide (r = []))) records)).
Proof.
  revert sjr_map rows.
  induction records as [|record records IH]; intros sjr_map rows Hload Hrec.
  - simpl in Hload. destruct stop; simplify_eq. by rewrite app_nil_r.
  - destruct record as [|cell cells].
    + exact (IH sjr_map rows Hload Hrec).
    + change (load_rows fieldnames sjr_map ((cell :: cells) :: records) stop)
        with (process_row sjr_map (Csv.dict_row fieldnames (cell :: cells))
                ≫= λ m, load_rows fieldnames m records stop) in Hload.
      destruct (process_row sjr_map _) as [m|e] eqn:Hrow; [|discriminate].
      simpl in Hload.
      change (List.filter _ ((cell :: cells) :: records))
        with ((cell :: cells) ::
              List.filter (λ r, negb (bool_decide (r = []))) records).
      rewrite fmap_cons, cons_middle, app_assoc.
      apply (IH m); [exact Hload|].
      exact (process_row_scores _ _ _ _ Hrow Hrec).
Qed.

Lemma scores_recorded_empty : scores_recorded ∅ [].
Proof. intros issn. by rewrite lookup_empty. Qed.

(** C1. When [load_sjr_map] accepts a file, every key of the returned
    dictionary holds the maximum of the scores of the rows that carry that
    ISSN, the rows without a score left out: the stored integer is one of
    these scores and none of them is larger. *)
Theorem load_sjr_map_maximum (fs : gmap string string) (csv_path : string)
    (sjr_map : gmap string Z) :
  load_sjr_map fs csv_path = Ok sjr_map →
  ∃ text, fs !! csv_path = Some text ∧
    ∀ issn n, sjr_map !! issn = Some n →
      maximum_of n (observed_scores issn (csv_rows text)).
Proof.
  unfold load_sjr_map, load_records, csv_rows.
  destruct (fs !! csv_path) as [text|]; [|discriminate].
  intros Hload. exists text. split; [reflexivity|].
  destruct (Csv.reader text) as [[|fieldnames records] stop].
  - by destruct stop.
  - case_bool_decide; [discriminate|].
    intros issn n Hn.
    pose proof (load_rows_scores _ _ _ _ _ [] Hload scores_recorded_empty issn)
      as Hrec.
    by rewrite Hn in Hrec.
Qed.

(** Two rows for one ISSN with the scores 4 and 7 leave 7. *)
Lemma load_sjr_map_maximum_witness :
  load_sjr_map {[ "scimago.csv"%string := duplicate_csv ]} "scimago.csv"
    = Ok {[ "1234-5678"%string := 7 ]} ∧
  ∃ text,
    ({[ "scimago.csv"%string := duplicate_csv ]} : gmap string string)
      !! "scimago.csv"%string = Some text ∧
    ∀ issn n,
      ({[ "1234-5678"%string := 7 ]} : gmap string Z) !! issn = Some n →
      maximum_of n (observed_scores issn (csv_rows text)).
Proof.
  assert (load_sjr_map {[ "scimago.csv"%string := duplicate_csv ]}
            "scimago.csv" = Ok {[ "1234-5678"%string := 7 ]}) as Hload
    by (vm_compute; reflexivity).
  split; [exact Hload|].
  exact (load_sjr_map_maximum _ _ _ Hload).
Defined.

(** ** The emitted module *)

Lemma join_unlines (lines : list string) :
  Py.join (String Csv.LF EmptyString) (lines ++ [EmptyString])
  = unlines lines.
Proof.
  induction lines as [|line lines IH]; [reflexivity|].
  simpl unlines. rewrite <- IH.
  change ((line :: lines) ++ [EmptyString])
    with (line :: (lines ++ [EmptyString])).
  destruct (lines ++ [EmptyString]) as [|next rest] eqn:Hrest;
    [by destruct lines|].
  reflexivity.
Qed.

Lemma sorted_keys_entries (sjr_map : gmap string Z) (k : string) (v : Z) :
  (k, v) ∈ (λ issn, (issn, sjr_map !!! issn))
             <$> Py.sorted (map_to_list sjr_map).*1
  ↔ sjr_map !! k = Some v.
Proof.
  unfold Py.sorted. rewrite list_elem_of_fmap. split.
  - intros (issn & [= -> ->] & Hin).
    rewrite merge_sort_Permutation in Hin.
    apply list_elem_of_fmap in Hin as ([k v] & -> & Hin).
    apply elem_of_map_to_list in Hin. simpl.
    by rewrite lookup_total_alt, Hin.
  - intros Hk. exists k. split.
    + by rewrite lookup_total_alt, Hk.
    + rewrite merge_sort_Permutation.
      apply list_elem_of_fmap. exists (k, v).
      split; [reflexivity|]. by apply elem_of_map_to_list.
Qed.

(** C3, as claimed: with an indentation of two spaces the emitted text of a
    dictionary with one entry does not have the claimed layout. *)
Lemma layout_two_spaces_fails :
  ¬ layout "  " {[ "1234-5678"%string := 5 ]}
      (js_text {[ "1234-5678"%string := 5 ]}).
Proof.
  intros (entries & _ & _ & _ & Htext).
  remember (js_text {[ "1234-5678"%string := 5 ]}) as text eqn:Hjs.
  vm_compute in Hjs. subst text.
  destruct entries as [|[k v] rest].
  - vm_compute in Htext. discriminate Htext.
  - cbn -[Py.str_int] in Htext. discriminate Htext.
Qed.

(** C3, as the code behaves: for every dictionary the text written by
    [write_js_module] is the header comment line, a blank line, the opening
    line, one line per key in ascending key order, each indented by four
    spaces and ended by a comma, the closing line, every line ended by one
    newline. *)
Theorem write_js_module_layout (sjr_map : gmap string Z)
    (output_path : string) (fs : gmap string string) :
  ∃ text,
    write_js_module sjr_map output_path fs !! output_path = Some text ∧
    layout "    " sjr_map text.
Proof.
  exists (js_text sjr_map). split.
  { unfold write_js_module. by rewrite lookup_insert_eq. }
  exists ((λ issn, (issn, sjr_map !!! issn))
            <$> Py.sorted (map_to_list sjr_map).*1).
  assert (((λ issn, (issn, sjr_map !!! issn))
             <$> Py.sorted (map_to_list sjr_map).*1).*1
          = Py.sorted (map_to_list sjr_map).*1) as Hkeys.
  { rewrite <- list_fmap_compose. apply list_fmap_id. }
  split; [apply sorted_keys_entries|].
  rewrite Hkeys. split; [|split].
  - unfold Py.sorted. rewrite merge_sort_Permutation.
    apply NoDup_fst_map_to_list.
  - apply Sorted_merge_sort. apply _.
  - unfold js_text, js_lines.
    rewrite <- list_fmap_compose.
    change [ "};"%string; EmptyString ]
      with ([ "};"%string ] ++ [ EmptyString ]).
    rewrite !app_assoc. rewrite join_unlines.
    rewrite <- !app_assoc. reflexivity.
Qed.

(** ** The end anchor of [ISSN_PATTERN] *)

Lemma newline_not_digit : Py.isdigit Csv.LF = false.
Proof. reflexivity. Qed.

Lemma newline_not_issn_last : issn_last Csv.LF = false.
Proof. reflexivity. Qed.

Lemma digit_not_newline (c : ascii) :
  Py.isdigit c = true → Ascii.eqb c Csv.LF = false.
Proof.
  destruct c as [[] [] [] [] [] [] [] []]; vm_compute; congruence.
Qed.

Lemma issn_last_not_newline (c : ascii) :
  issn_last c = true → Ascii.eqb c Csv.LF = false.
Proof.
  destruct c as [[] [] [] [] [] [] [] []]; vm_compute; congruence.
Qed.

Lemma without_final_newline_keeps (s : string) :
  ends_with_newline s = false → without_final_newline s = s.
Proof.
  induction s as [|c s IH]; [reflexivity|].
  cbn [ends_with_newline without_final_newline].
  destruct (Py.is_empty s) eqn:He.
  - destruct s; [|discriminate]. by intros ->.
  - intros H. simpl andb. cbv iota. by rewrite IH.
Qed.

Lemma without_final_newline_drops (s : string) :
  ends_with_newline s = true →
  s = without_final_newline s +:+ String Csv.LF EmptyString.
Proof.
  induction s as [|c s IH]; [discriminate|].
  cbn [ends_with_newline without_final_newline].
  destruct (Py.is_empty s) eqn:He.
  - destruct s; [|discriminate]. intros H. rewrite H.
    by apply Ascii.eqb_eq in H as ->.
  - intros H. simpl andb. cbv iota.
    change (String c s
            = String c (without_final_newline s +:+ String Csv.LF EmptyString)).
    f_equal. by apply IH.
Qed.

Lemma ends_with_newline_append (v : string) :
  ends_with_newline (v +:+ String Csv.LF EmptyString) = true.
Proof.
  induction v as [|c v IH]; [reflexivity|].
  change (String c v +:+ String Csv.LF EmptyString)
    with (String c (v +:+ String Csv.LF EmptyString)).
  cbn [ends_with_newline].
  destruct (v +:+ String Csv.LF EmptyString) eqn:Hv.
  - by destruct v.
  - exact IH.
Qed.

(** The part of the pattern after the optional hyphen, on any string. *)
Lemma matches_tail_any (rest : string) :
  Re.matches (Re.repeat 3 (Re.Class Py.isdigit) ++ [Re.Class issn_last; Re.Dollar])
             rest
  = issn_shaped_tail (without_final_newline rest).
Proof.
  destruct (ends_with_newline rest) eqn:Hnl.
  - apply without_final_newline_drops in Hnl.
    set (v := without_final_newline rest) in *. clearbody v. subst rest.
    destruct v as [|e [|f [|g [|h [|n tail]]]]];
      cbv -[Ascii.eqb Py.isdigit issn_last Csv.LF andb orb];
      rewrite ?newline_not_digit, ?newline_not_issn_last, ?andb_false_r;
      try reflexivity.
    + change (Ascii.eqb Csv.LF "010") with true.
      unfold issn_last. by rewrite !andb_true_r, !andb_assoc.
    + destruct tail; by rewrite !andb_false_r.
  - rewrite without_final_newline_keeps by exact Hnl.
    by apply matches_tail.
Qed.

Lemma issn_shaped_tail_hyphen (rest : string) :
  issn_shaped_tail (String "-" rest) = false.
Proof. by destruct rest as [|f [|g [|h [|n tail]]]]. Qed.

(** X1. [is_valid_issn] accepts exactly the strings that have the ISSN shape
    once the newline that may end them is taken away: the anchor [$] also
    holds just before a final newline. *)
Theorem is_valid_issn_newline (value : string) :
  is_valid_issn value = issn_shaped (without_final_newline value).
Proof.
  unfold is_valid_issn, ISSN_PATTERN.
  destruct value as [|a [|b [|c [|d rest]]]].
  - reflexivity.
  - cbv -[Ascii.eqb Py.isdigit issn_last Csv.LF andb orb]; cbn [andb].
    rewrite ?andb_false_r.
    by destruct (Ascii.eqb a Csv.LF); rewrite ?andb_false_r.
  - cbv -[Ascii.eqb Py.isdigit issn_last Csv.LF andb orb]; cbn [andb].
    rewrite ?andb_false_r.
    by destruct (Ascii.eqb b Csv.LF); rewrite ?andb_false_r.
  - cbv -[Ascii.eqb Py.isdigit issn_last Csv.LF andb orb]; cbn [andb].
    rewrite ?andb_false_r.
    by destruct (Ascii.eqb c Csv.LF); rewrite ?andb_false_r.
  - change (Re.repeat 4 (Re.Class Py.isdigit) ++ [Re.Optional "-"] ++
            Re.repeat 3 (Re.Class Py.isdigit) ++ [Re.Class issn_last; Re.Dollar])
      with (Re.Class Py.isdigit :: Re.Class Py.isdigit :: Re.Class Py.isdigit
            :: Re.Class Py.isdigit :: Re.Optional "-"
            :: (Re.repeat 3 (Re.Class Py.isdigit) ++
                [Re.Class issn_last; Re.Dollar])).
    rewrite !matches_class.
    destruct rest as [|sep rest].
    + cbv -[Ascii.eqb Py.isdigit issn_last Csv.LF andb orb]; cbn [andb].
    rewrite ?andb_false_r.
    by destruct (Ascii.eqb d Csv.LF); rewrite ?andb_false_r.
    + change (without_final_newline
                (String a (String b (String c (String d (String sep rest))))))
        with (String a (String b (String c (String d
                (without_final_newline (String sep rest)))))).
      unfold issn_shaped. rewrite !andb_assoc. f_equal.
      rewrite matches_optional, !matches_tail_any.
      cbn [without_final_newline].
      destruct (Py.is_empty rest && Ascii.eqb sep Csv.LF) eqn:Hlast.
      * apply andb_true_iff in Hlast as [Hempty Hsep].
        apply Ascii.eqb_eq in Hsep. subst sep.
        destruct rest; [reflexivity|discriminate].
      * destruct (Ascii.eqb_spec sep "-") as [->|Hsep].
        -- by rewrite issn_shaped_tail_hyphen, orb_false_r.
        -- reflexivity.
Qed.

(** ** Replacement of one character *)

Lemma contains_append (c : ascii) (s t : string) :
  Py.contains c (s +:+ t) = Py.contains c s || Py.contains c t.
Proof.
  induction s as [|d s IH]; [reflexivity|].
  change (String d s +:+ t) with (String d (s +:+ t)).
  simpl. by rewrite IH, orb_assoc.
Qed.

Lemma replace_removes (old : ascii) (new s : string) :
  Py.contains old new = false →
  Py.contains old (Py.replace old new s) = false.
Proof.
  intros Hnew. induction s as [|c s IH]; [reflexivity|].
  simpl. destruct (Ascii.eqb c old) eqn:Hc.
  - by rewrite contains_append, Hnew, IH.
  - simpl. by rewrite Hc, IH.
Qed.

Lemma replace_keeps_absent (c old : ascii) (new s : string) :
  Py.contains c new = false →
  Py.contains c s = false →
  Py.contains c (Py.replace old new s) = false.
Proof.
  intros Hnew. induction s as [|d s IH]; [reflexivity|].
  simpl. intros [Hd Hs]%orb_false_iff.
  destruct (Ascii.eqb d old).
  - by rewrite contains_append, Hnew, IH.
  - simpl. by rewrite Hd, IH.
Qed.

Lemma replace_length (old : ascii) (s : string) :
  (String.length (Py.replace old EmptyString s) ≤ String.length s)%nat.
Proof.
  induction s as [|c s IH]; simpl; [lia|].
  destruct (Ascii.eqb c old).
  - change (String.length (Py.replace old EmptyString s)
            ≤ S (String.length s))%nat. lia.
  - simpl. lia.
Qed.

(** X2. [normalize_issn] leaves no space character, never makes the string
    longer, and applying it twice is the same as applying it once. *)
Theorem normalize_issn_idempotent (value : string) :
  Py.contains " " (normalize_issn value) = false ∧
  (String.length (normalize_issn value) ≤ String.length value)%nat ∧
  normalize_issn (normalize_issn value) = normalize_issn value.
Proof.
  assert (Py.contains " " (normalize_issn value) = false) as Hclean
    by by apply replace_removes.
  split; [exact Hclean|]. split; [apply replace_length|].
  unfold normalize_issn in *. by apply replace_no_occurrence.
Qed.

(** X6. The text that [parse_sjr] hands to [float] holds no comma and no
    space, whatever the field. *)
Theorem sjr_literal_separators (value : string) :
  Py.contains "," (sjr_literal value) = false ∧
  Py.contains " " (sjr_literal value) = false.
Proof.
  unfold sjr_literal.
  set (cleaned := Py.replace " " EmptyString (Py.strip value)).
  assert (Py.contains " " cleaned = false) as Hspace
    by by apply replace_removes.
  destruct (Py.contains "," cleaned) eqn:Hcomma; simpl.
  - destruct (Py.contains "." cleaned); split.
    + by apply replace_removes.
    + by do 2 (apply replace_keeps_absent; [reflexivity|]).
    + by apply replace_removes.
    + by apply replace_keeps_absent.
  - by split.
Qed.

(** ** More on the ISSN field parser *)

(** [parse_issns] as one pass over the pieces of the field, the empty
    field included. *)
Lemma parse_issns_pieces (issn_field : string) :
  parse_issns (Some issn_field)
  = omap (λ piece, if issn_shaped (Py.strip piece)
                   then Some (Py.strip piece) else None)
         (Py.split "," issn_field).
Proof.
  unfold parse_issns.
  destruct issn_field as [|c rest]; [reflexivity|].
  simpl negb. cbv iota. change ISSN_DELIMITER with ","%char.
  apply omap_pointwise. intros part. cbv zeta. apply parse_piece.
Qed.

Lemma split_not_empty (sep : ascii) (s : string) : Py.split sep s ≠ [].
Proof.
  destruct s as [|c s]; simpl; [done|].
  destruct (Ascii.eqb c sep); [done|].
  by destruct (Py.split sep s).
Qed.

Lemma split_append (sep : ascii) (a b : string) :
  Py.split sep (a +:+ String sep b) = Py.split sep a ++ Py.split sep b.
Proof.
  induction a as [|c a IH].
  - change (EmptyString +:+ String sep b) with (String sep b).
    simpl. by rewrite Ascii.eqb_refl.
  - change (String c a +:+ String sep b) with (String c (a +:+ String sep b)).
    simpl. rewrite IH. destruct (Ascii.eqb c sep); [reflexivity|].
    pose proof (split_not_empty sep a) as Hne.
    by destruct (Py.split sep a).
Qed.

(** X3. Every item that [parse_issns] returns is the trimmed form of a
    piece of the field, is accepted by [is_valid_issn] and holds no white
    space. *)
Theorem parse_issns_valid (issn_field issn : string) :
  issn ∈ parse_issns (Some issn_field) →
  is_valid_issn issn = true ∧ no_whitespace issn ∧
  ∃ piece, piece ∈ Py.split "," issn_field ∧ issn = Py.strip piece.
Proof.
  rewrite parse_issns_pieces, list_elem_of_omap.
  intros (piece & Hpiece & Hkept).
  destruct (issn_shaped (Py.strip piece)) eqn:Hshape; [|discriminate].
  injection Hkept as <-. split; [|split].
  - by rewrite is_valid_issn_shaped by apply strip_not_newline_ended.
  - by apply issn_shaped_no_whitespace.
  - by exists piece.
Qed.

Lemma parse_issns_valid_witness :
  "0987-654X" ∈ parse_issns (Some "1234-5678, 0987-654X") ∧
  is_valid_issn "0987-654X" = true ∧ no_whitespace "0987-654X" ∧
  ∃ piece, piece ∈ Py.split "," "1234-5678, 0987-654X" ∧
           "0987-654X" = Py.strip piece.
Proof.
  assert ("0987-654X" ∈ parse_issns (Some "1234-5678, 0987-654X")) as Hin.
  { assert (parse_issns (Some "1234-5678, 0987-654X")
            = ["1234-5678"; "0987-654X"]) as -> by (vm_compute; reflexivity).
    apply elem_of_cons. right. apply elem_of_cons. by left. }
  split; [exact Hin|].
  exact (parse_issns_valid "1234-5678, 0987-654X" "0987-654X" Hin).
Defined.

(** X4. The ISSNs of two fields joined by a comma are the ISSNs of the
    first followed by the ISSNs of the second. *)
Theorem parse_issns_append (a b : string) :
  parse_issns (Some (a +:+ "," +:+ b))
  = parse_issns (Some a) ++ parse_issns (Some b).
Proof.
  change ("," +:+ b) with (String "," b).
  by rewrite !parse_issns_pieces, split_append, omap_app.
Qed.

(** ** More on the map update *)

(** X7. Recording the same score twice is the same as recording it once,
    and two recordings can be made in either order. *)
Theorem record_score_commutes (sjr_map : gmap string Z)
    (issn1 issn2 : string) (score1 score2 : Z) :
  record_score (record_score sjr_map issn1 score1) issn1 score1
    = record_score sjr_map issn1 score1 ∧
  record_score (record_score sjr_map issn1 score1) issn2 score2
    = record_score (record_score sjr_map issn2 score2) issn1 score1.
Proof.
  split; apply map_eq; intros k; rewrite !record_score_lookup.
  - destruct (decide (issn1 = k)) as [->|]; [|reflexivity].
    rewrite decide_True by reflexivity. simpl. f_equal. lia.
  - destruct (decide (issn1 = k)) as [->|], (decide (issn2 = k)) as [->|];
      rewrite ?decide_True by reflexivity;
      rewrite ?decide_False by done; simpl; try reflexivity.
    f_equal. destruct (sjr_map !! k); simpl; lia.
Qed.

(** ** What [parse_sjr] raises *)

Lemma round_finite (neg : bool) (m e : Z) :
  ∃ n, Float.round (Float.Finite neg m e) = Ok n.
Proof.
  unfold Float.round. destruct (Float.scale2 m 1 (- e)) as [p q].
  by eexists.
Qed.

(** X5. On a string, [parse_sjr] raises exactly when the field is not
    blank and [float] reads its literal as an infinity or as a NaN:
    [OverflowError] in the first case, [ValueError] in the second.  Nothing
    else is raised. *)
Theorem parse_sjr_raise_iff (value : string) (e : exn) :
  parse_sjr (Some value) = Raise e ↔
  Py.strip value ≠ EmptyString ∧
  ((∃ neg, Float.of_string (sjr_literal value) = Some (Float.Inf neg)) ∧
   e = OverflowError
   ∨ Float.of_string (sjr_literal value) = Some Float.NaN ∧
     e = ValueError "cannot convert float NaN to integer").
Proof.
  unfold parse_sjr. simpl.
  destruct (Py.strip value) as [|c rest] eqn:Hstrip; simpl.
  - split; [discriminate|]. by intros [? _].
  - destruct (Float.of_string (sjr_literal value)) as [[neg m x|neg|]|].
    + destruct (round_finite neg m x) as [n ->]. simpl. split; [discriminate|].
      intros [_ [[[? ?] _]|[? _]]]; discriminate.
    + simpl. split.
      * intros [= <-]. split; [discriminate|]. left. split; [by eexists|done].
      * intros [_ [[_ ->]|[? _]]]; [reflexivity|discriminate].
    + simpl. split.
      * intros [= <-]. split; [discriminate|]. by right.
      * intros [_ [[[? ?] _]|[_ ->]]]; [discriminate|reflexivity].
    + split; [discriminate|].
      intros [_ [[[? ?] _]|[? _]]]; discriminate.
Qed.

(** ** The loop over the rows *)

(** What a row that is processed does to every key. *)
Lemma process_row_lookup (sjr_map sjr_map' : gmap string Z)
    (row : gmap string (option string)) (k : string) :
  process_row sjr_map row = Ok sjr_map' →
  sjr_map' !! k =
    match row_score row with
    | Some score =>
        if bool_decide (k ∈ row_issns row)
        then Some (Z.max (default score (sjr_map !! k)) score)
        else sjr_map !! k
    | None => sjr_map !! k
    end.
Proof.
  unfold process_row, row_score, row_issns.
  destruct (Py.strip_value _) as [issn_field|e]; [|discriminate].
  destruct (parse_sjr _) as [[score|]|e]; simpl; intros Hrow; simplify_eq.
  - apply fold_record_score_lookup.
  - reflexivity.
Qed.

(** Whether a row is processed does not depend on the dictionary. *)
Lemma process_row_any (sjr_map sjr_map' other : gmap string Z)
    (row : gmap string (option string)) :
  process_row sjr_map row = Ok sjr_map' →
  ∃ other', process_row other row = Ok other'.
Proof.
  unfold process_row.
  destruct (Py.strip_value _) as [issn_field|e]; [|discriminate].
  destruct (parse_sjr _) as [[score|]|e]; simpl; intros Hrow; simplify_eq;
    by eexists.
Qed.

Lemma process_row_grows (sjr_map sjr_map' : gmap string Z)
    (row : gmap string (option string)) (k : string) (n : Z) :
  process_row sjr_map row = Ok sjr_map' →
  sjr_map !! k = Some n →
  ∃ n', sjr_map' !! k = Some n' ∧ n ≤ n'.
Proof.
  intros Hrow Hk. rewrite (process_row_lookup _ _ _ k Hrow), Hk.
  destruct (row_score row) as [score|]; [|exists n; split; [done|lia]].
  case_bool_decide; simpl.
  - eexists. split; [reflexivity|lia].
  - exists n. split; [done|lia].
Qed.

(** One step of the loop, the record that is passed over included. *)
Lemma load_rows_cons (fieldnames record : list string)
    (records : list (list string)) (stop : option exn)
    (sjr_map : gmap string Z) :
  load_rows fieldnames sjr_map (record :: records) stop =
    if bool_decide (record = [])
    then load_rows fieldnames sjr_map records stop
    else process_row sjr_map (Csv.dict_row fieldnames record)
           ≫= λ m, load_rows fieldnames m records stop.
Proof. by destruct record. Qed.

(** X8. While the rows are read no key leaves the dictionary and no stored
    score decreases: what the loop returns holds every key it started with,
    under a score at least as large. *)
Theorem load_rows_grows (fieldnames : list string)
    (records : list (list string)) (stop : option exn)
    (sjr_map sjr_map' : gmap string Z) (k : string) (n : Z) :
  load_rows fieldnames sjr_map records stop = Ok sjr_map' →
  sjr_map !! k = Some n →
  ∃ n', sjr_map' !! k = Some n' ∧ n ≤ n'.
Proof.
  revert sjr_map n.
  induction records as [|record records IH]; intros sjr_map n Hload Hk.
  - simpl in Hload. destruct stop; simplify_eq.
    exists n. split; [done|lia].
  - rewrite load_rows_cons in Hload. case_bool_decide.
    + by apply (IH sjr_map).
    + destruct (process_row sjr_map _) as [m|e] eqn:Hrow; [|discriminate].
      simpl in Hload.
      destruct (process_row_grows _ _ _ _ _ Hrow Hk) as (n1 & Hk1 & Hle1).
      destruct (IH m n1 Hload Hk1) as (n' & Hk' & Hle').
      exists n'. split; [done|lia].
Qed.

Lemma load_rows_grows_witness :
  load_rows ["Issn"; "SJR"] {[ "1234-5678"%string := 4 ]}
    [["1234-5678"; "7"]; ["0987-654X"; "2"]] None
    = Ok {[ "0987-654X"%string := 2; "1234-5678"%string := 7 ]} ∧
  ({[ "1234-5678"%string := 4 ]} : gmap string Z) !! "1234-5678"%string
    = Some 4 ∧
  ∃ n', ({[ "0987-654X"%string := 2; "1234-5678"%string := 7 ]}
           : gmap string Z) !! "1234-5678"%string = Some n' ∧ 4 ≤ n'.
Proof.
  assert (load_rows ["Issn"; "SJR"] {[ "1234-5678"%string := 4 ]}
            [["1234-5678"; "7"]; ["0987-654X"; "2"]] None
          = Ok {[ "0987-654X"%string := 2; "1234-5678"%string := 7 ]})
    as Hload by (vm_compute; reflexivity).
  assert (({[ "1234-5678"%string := 4 ]} : gmap string Z)
            !! "1234-5678"%string = Some 4) as Hk by reflexivity.
  split; [exact Hload|]. split; [exact Hk|].
  exact (load_rows_grows _ _ _ _ _ _ _ Hload Hk).
Defined.

(** Two rows that are processed one after the other can be processed in
    the other order, with the same dictionary at the end. *)
Lemma process_row_swap (m m1 m2 : gmap string Z)
    (row1 row2 : gmap string (option string)) :
  process_row m row1 = Ok m1 →
  process_row m1 row2 = Ok m2 →
  ∃ m1', process_row m row2 = Ok m1' ∧ process_row m1' row1 = Ok m2.
Proof.
  intros H1 H2.
  destruct (process_row_any _ _ m _ H2) as [m1' H2'].
  destruct (process_row_any _ _ m1' _ H1) as [m2' H1'].
  exists m1'. split; [exact H2'|]. rewrite H1'. f_equal.
  apply map_eq. intros k.
  rewrite (process_row_lookup _ _ _ k H1'), (process_row_lookup _ _ _ k H2'),
    (process_row_lookup _ _ _ k H2), (process_row_lookup _ _ _ k H1).
  destruct (row_score row1) as [s1|], (row_score row2) as [s2|];
    try reflexivity.
  destruct (bool_decide (k ∈ row_issns row1)),
    (bool_decide (k ∈ row_issns row2)); try reflexivity.
  simpl. f_equal. destruct (m !! k); simpl; lia.
Qed.

Lemma bind_ok {A B : Type} (x : A) (f : A → result B) : Ok x ≫= f = f x.
Proof. reflexivity. Qed.

Lemma load_rows_swap (fieldnames x y : list string)
    (records : list (list string)) (stop : option exn)
    (sjr_map sjr_map' : gmap string Z) :
  load_rows fieldnames sjr_map (x :: y :: records) stop = Ok sjr_map' →
  load_rows fieldnames sjr_map (y :: x :: records) stop = Ok sjr_map'.
Proof.
  destruct x as [|cx x], y as [|cy y]; try (intros H; exact H).
  set (rx := cx :: x). set (ry := cy :: y).
  assert (∀ m rest,
            load_rows fieldnames m (rx :: rest) stop
            = process_row m (Csv.dict_row fieldnames rx)
                ≫= λ m', load_rows fieldnames m' rest stop) as Hrx by done.
  assert (∀ m rest,
            load_rows fieldnames m (ry :: rest) stop
            = process_row m (Csv.dict_row fieldnames ry)
                ≫= λ m', load_rows fieldnames m' rest stop) as Hry by done.
  clearbody rx ry. rewrite Hrx, Hry.
  destruct (process_row sjr_map (Csv.dict_row fieldnames rx))
    as [m1|e] eqn:Hx; [|discriminate].
  rewrite bind_ok, Hry.
  destruct (process_row m1 (Csv.dict_row fieldnames ry))
    as [m2|e] eqn:Hy; [|discriminate].
  rewrite bind_ok. intros Hload.
  destruct (process_row_swap _ _ _ _ _ Hx Hy) as (m1' & -> & Hx').
  by rewrite bind_ok, Hrx, Hx', bind_ok.
Qed.

(** X9. The order of the records does not matter: when the loop returns a
    dictionary for the records in one order, it returns the same dictionary
    for them in any other order. *)
Theorem load_rows_permutation (fieldnames : list string)
    (records records' : list (list string)) (stop : option exn)
    (sjr_map sjr_map' : gmap string Z) :
  records ≡ₚ records' →
  load_rows fieldnames sjr_map records stop = Ok sjr_map' →
  load_rows fieldnames sjr_map records' stop = Ok sjr_map'.
Proof.
  intros Hperm. revert sjr_map sjr_map'.
  induction Hperm as [|x l l' Hperm IH|x y l|l l' l'' _ IH1 _ IH2];
    intros sjr_map sjr_map'.
  - done.
  - rewrite !load_rows_cons. case_bool_decide; [apply IH|].
    destruct (process_row sjr_map _) as [m|e]; [|done].
    simpl. apply IH.
  - apply load_rows_swap.
  - intros Hload. by apply IH2, IH1.
Qed.

Lemma load_rows_permutation_witness :
  [["1234-5678"; "7"]; ["1234-5678, 0987-654X"; "2"]]
    ≡ₚ [["1234-5678, 0987-654X"; "2"]; ["1234-5678"; "7"]] ∧
  load_rows ["Issn"; "SJR"] ∅
    [["1234-5678"; "7"]; ["1234-5678, 0987-654X"; "2"]] None
    = Ok {[ "0987-654X"%string := 2; "1234-5678"%string := 7 ]} ∧
  load_rows ["Issn"; "SJR"] ∅
    [["1234-5678, 0987-654X"; "2"]; ["1234-5678"; "7"]] None
    = Ok {[ "0987-654X"%string := 2; "1234-5678"%string := 7 ]}.
Proof.
  assert ([["1234-5678"; "7"]; ["1234-5678, 0987-654X"; "2"]]
            ≡ₚ [["1234-5678, 0987-654X"; "2"]; ["1234-5678"; "7"]])
    as Hperm by apply Permutation_swap.
  assert (load_rows ["Issn"; "SJR"] ∅
            [["1234-5678"; "7"]; ["1234-5678, 0987-654X"; "2"]] None
          = Ok {[ "0987-654X"%string := 2; "1234-5678"%string := 7 ]})
    as Hload by (vm_compute; reflexivity).
  split; [exact Hperm|]. split; [exact Hload|].
  exact (load_rows_permutation _ _ _ _ _ _ Hperm Hload).
Defined.

(** ** When the file is accepted *)

Lemma parse_sjr_returns (value : string) :
  (∃ r, parse_sjr (Some value) = Ok r) ↔ finite_score value = true.
Proof.
  unfold parse_sjr, finite_score, sjr_literal. simpl.
  destruct (Py.strip value) as [|c rest] eqn:Hstrip.
  - simpl. split; [done|]. by eexists.
  - cbn [Py.is_empty negb].
    destruct (Float.of_string _) as [[neg m x|neg|]|].
    + destruct (round_finite neg m x) as [n ->]. split; [done|]. by eexists.
    + split; [|done]. by intros [r Hr].
    + split; [|done]. by intros [r Hr].
    + split; [done|]. by eexists.
Qed.

Lemma bind_raise {A B : Type} (e : exn) (f : A → result B) :
  Raise e ≫= f = Raise e.
Proof. reflexivity. Qed.

(** A row is processed exactly when it is readable. *)
Lemma process_row_returns (sjr_map : gmap string Z)
    (row : gmap string (option string)) :
  (∃ sjr_map', process_row sjr_map row = Ok sjr_map')
  ↔ row_readable row = true.
Proof.
  unfold process_row, row_readable.
  destruct (Csv.get row "Issn" (Some EmptyString)) as [issn_field|].
  - change (Py.strip_value (Some issn_field))
      with (Ok (A:=string) (Py.strip issn_field)).
    rewrite bind_ok.
    destruct (Csv.get row "SJR" (Some EmptyString)) as [value|].
    + rewrite <- parse_sjr_returns.
      destruct (parse_sjr (Some value)) as [[score|]|e].
      * rewrite bind_ok. split; intros _; by eexists.
      * rewrite bind_ok. split; intros _; by eexists.
      * rewrite bind_raise. split; by intros [? ?].
    + change (parse_sjr None) with (Raise (A:=option Z) AttributeError).
      rewrite bind_raise. split; [by intros [? ?]|done].
  - change (Py.strip_value None) with (Raise (A:=string) AttributeError).
    rewrite bind_raise. split; [by intros [? ?]|done].
Qed.

Lemma load_rows_returns (fieldnames : list string)
    (records : list (list string)) (stop : option exn)
    (sjr_map : gmap string Z) :
  (∃ sjr_map', load_rows fieldnames sjr_map records stop = Ok sjr_map')
  ↔ stop = None ∧
    ∀ record, record ∈ records →
      record = [] ∨ row_readable (Csv.dict_row fieldnames record) = true.
Proof.
  revert sjr_map. induction records as [|record records IH]; intros sjr_map.
  - simpl. destruct stop; split.
    + by intros [? ?].
    + by intros [? _].
    + intros _. split; [done|]. by intros record ?%elem_of_nil.
    + intros _. by eexists.
  - rewrite load_rows_cons. case_bool_decide as Hempty.
    + rewrite IH. split; intros [Hstop Hrows]; (split; [done|]).
      * intros r [->|Hr]%elem_of_cons; [by left|by apply Hrows].
      * intros r Hr. apply Hrows. by right.
    + destruct (process_row sjr_map (Csv.dict_row fieldnames record))
        as [m|e] eqn:Hrow.
      * rewrite bind_ok, IH.
        assert (row_readable (Csv.dict_row fieldnames record) = true)
          as Hreadable by (apply (process_row_returns sjr_map); by eexists).
        split; intros [Hstop Hrows]; (split; [done|]).
        -- intros r [->|Hr]%elem_of_cons; [by right|by apply Hrows].
        -- intros r Hr. apply Hrows. by right.
      * split; [by intros [? ?]|]. intros [_ Hrows].
        destruct (Hrows record) as [?|Hreadable]; [by left|done|].
        apply (process_row_returns sjr_map) in Hreadable as [m Hm].
        congruence.
Qed.

(** X11. [load_sjr_map] returns a dictionary exactly when the file exists,
    the reader gets through its text without [csv.Error], the header holds
    both [Issn] and [SJR], and every record after the header is empty or
    readable: both cells are strings and the score is not an infinity or a
    NaN. *)
Theorem load_sjr_map_accepts (fs : gmap string string) (csv_path : string) :
  (∃ sjr_map, load_sjr_map fs csv_path = Ok sjr_map) ↔
  ∃ text fieldnames records,
    fs !! csv_path = Some text ∧
    Csv.reader text = (fieldnames :: records, None) ∧
    "Issn" ∈ fieldnames ∧ "SJR" ∈ fieldnames ∧
    ∀ record, record ∈ records →
      record = [] ∨ row_readable (Csv.dict_row fieldnames record) = true.
Proof.
  unfold load_sjr_map, load_records.
  destruct (fs !! csv_path) as [text|]; [|split].
  - destruct (Csv.reader text) as [[|fieldnames records] stop] eqn:Hread.
    + split.
      * destruct stop; by intros [? ?].
      * intros (? & ? & ? & [= <-] & Hread' & _). congruence.
    + case_bool_decide as Hheader.
      * split; [by intros [? ?]|].
        intros (? & ? & ? & [= <-] & Hread' & Hissn & Hsjr & _).
        rewrite Hread in Hread'. injection Hread' as <- <- _.
        by destruct Hheader.
      * rewrite load_rows_returns. split.
        -- intros [-> Hrows]. exists text, fieldnames, records.
           split; [done|]. split; [done|]. split; [|split; [|done]].
           ++ destruct (decide ("Issn" ∈ fieldnames)); [done|].
              destruct Hheader. by left.
           ++ destruct (decide ("SJR" ∈ fieldnames)); [done|].
              destruct Hheader. by right.
        -- intros (? & ? & ? & [= <-] & Hread' & _ & _ & Hrows).
           rewrite Hread in Hread'. by injection Hread' as <- <- <-.
  - by intros [? ?].
  - by intros (? & ? & ? & ? & _).
Qed.

(** ** Records that reach every column *)

Lemma zip_insert_lookup (pairs : list (string * string))
    (d : gmap string (option string)) (key : string) :
  key ∈ pairs.*1 ∨ (∃ s, d !! key = Some (Some s)) →
  ∃ s, foldl (λ d kv, <[kv.1 := Some kv.2]> d) d pairs !! key
       = Some (Some s).
Proof.
  revert d. induction pairs as [|[k v] pairs IH]; intros d Hkey.
  - destruct Hkey as [Hin|Hd]; [|exact Hd]. by apply elem_of_nil in Hin.
  - simpl foldl. apply IH.
    destruct (decide (k = key)) as [->|Hne].
    + right. exists v. by rewrite lookup_insert_eq.
    + destruct Hkey as [Hin|Hd].
      * left. rewrite fmap_cons in Hin.
        apply elem_of_cons in Hin as [Heq|?]; [|done].
        simpl in Heq. congruence.
      * right. by rewrite lookup_insert_ne.
Qed.

Lemma dict_row_complete (fieldnames record : list string) (key : string) :
  (length fieldnames ≤ length record)%nat →
  key ∈ fieldnames →
  ∃ s, Csv.get (Csv.dict_row fieldnames record) key (Some EmptyString)
       = Some s.
Proof.
  intros Hlen Hkey. unfold Csv.get, Csv.dict_row.
  rewrite drop_ge by exact Hlen. simpl foldl.
  destruct (zip_insert_lookup (zip fieldnames record) ∅ key) as [s ->].
  - left. by rewrite fst_zip.
  - by exists s.
Qed.

Lemma complete_record_readable (fieldnames record : list string) :
  "Issn" ∈ fieldnames →
  complete_record fieldnames record = true →
  record = [] ∨ row_readable (Csv.dict_row fieldnames record) = true.
Proof.
  intros Hissn. unfold complete_record.
  case_bool_decide as Hempty; [by left|]. simpl.
  intros [Hlen%Nat.leb_le Hscore]%andb_true_iff. right.
  unfold row_readable.
  by destruct (dict_row_complete fieldnames record "Issn" Hlen Hissn)
    as [s ->].
Qed.

(** X12. A file is accepted when the reader gets through it, its header
    holds [Issn] and [SJR], and every record is empty or has at least as
    many cells as the header and a score that is not an infinity or a
    NaN. *)
Theorem load_sjr_map_complete_records (fs : gmap string string)
    (csv_path text : string) (fieldnames : list string)
    (records : list (list string)) :
  fs !! csv_path = Some text →
  Csv.reader text = (fieldnames :: records, None) →
  "Issn" ∈ fieldnames →
  "SJR" ∈ fieldnames →
  forallb (complete_record fieldnames) records = true →
  ∃ sjr_map, load_sjr_map fs csv_path = Ok sjr_map.
Proof.
  intros Hfile Hread Hissn Hsjr Hrecords.
  unfold load_sjr_map, load_records. rewrite Hfile, Hread.
  rewrite bool_decide_false by (intros [?|?]; done).
  apply load_rows_returns. split; [done|].
  intros record Hrecord. apply complete_record_readable; [done|].
  rewrite forallb_forall in Hrecords. apply Hrecords.
  by apply list_elem_of_In.
Qed.

Lemma load_sjr_map_complete_records_witness :
  ({[ "scimago.csv"%string := example_csv LF ]} : gmap string string)
    !! "scimago.csv"%string = Some (example_csv LF) ∧
  Csv.reader (example_csv LF)
    = (["Issn"; "SJR"] ::
       [["1234-5678"; "3,2"]; ["1234-5678, 0987-654X"; "5"];
        ["bad-issn"; "1"]], None) ∧
  "Issn"%string ∈ ["Issn"%string; "SJR"%string] ∧
  "SJR"%string ∈ ["Issn"%string; "SJR"%string] ∧
  forallb (complete_record ["Issn"; "SJR"])
    [["1234-5678"; "3,2"]; ["1234-5678, 0987-654X"; "5"]; ["bad-issn"; "1"]]
    = true ∧
  ∃ sjr_map,
    load_sjr_map {[ "scimago.csv"%string := example_csv LF ]} "scimago.csv"
    = Ok sjr_map.
Proof.
  assert (({[ "scimago.csv"%string := example_csv LF ]} : gmap string string)
            !! "scimago.csv"%string = Some (example_csv LF)) as Hfile
    by reflexivity.
  assert (Csv.reader (example_csv LF)
          = (["Issn"; "SJR"] ::
             [["1234-5678"; "3,2"]; ["1234-5678, 0987-654X"; "5"];
              ["bad-issn"; "1"]], None)) as Hread
    by (vm_compute; reflexivity).
  assert ("Issn"%string ∈ ["Issn"%string; "SJR"%string]) as Hissn
    by (apply elem_of_cons; by left).
  assert ("SJR"%string ∈ ["Issn"%string; "SJR"%string]) as Hsjr
    by (apply elem_of_cons; right; apply elem_of_cons; by left).
  assert (forallb (complete_record ["Issn"; "SJR"])
            [["1234-5678"; "3,2"]; ["1234-5678, 0987-654X"; "5"];
             ["bad-issn"; "1"]] = true) as Hrecords
    by (vm_compute; reflexivity).
  split; [exact Hfile|]. split; [exact Hread|]. split; [exact Hissn|].
  split; [exact Hsjr|]. split; [exact Hrecords|].
  exact (load_sjr_map_complete_records _ _ _ _ _
           Hfile Hread Hissn Hsjr Hrecords).
Defined.

(** ** The keys of the dictionary *)

Lemma parse_issns_shaped (issn_field issn : string) :
  issn ∈ parse_issns (Some issn_field) → issn_shaped issn = true.
Proof.
  rewrite parse_issns_pieces, list_elem_of_omap.
  intros (piece & _ & Hkept).
  destruct (issn_shaped (Py.strip piece)) eqn:Hshape; [|discriminate].
  by injection Hkept as <-.
Qed.

Lemma row_issns_shaped (row : gmap string (option string)) (issn : string) :
  issn ∈ row_issns row → issn_shaped issn = true.
Proof.
  unfold row_issns. destruct (Py.strip_value _) as [issn_field|e].
  - apply parse_issns_shaped.
  - by intros ?%elem_of_nil.
Qed.

Lemma observed_scores_row (issn : string) (n : Z)
    (rows : list (gmap string (option string))) :
  n ∈ observed_scores issn rows →
  ∃ row, row ∈ rows ∧ issn ∈ row_issns row ∧ row_score row = Some n.
Proof.
  unfold observed_scores. rewrite list_elem_of_omap.
  intros (row & Hrow & Hscore). exists row.
  case_bool_decide; [done|discriminate].
Qed.

(** What [load_sjr_map] returns holds, under every key, the maximum of the
    scores of the rows that carry the key. *)
Lemma load_sjr_map_scores (fs : gmap string string) (csv_path : string)
    (sjr_map : gmap string Z) :
  load_sjr_map fs csv_path = Ok sjr_map →
  ∃ text, fs !! csv_path = Some text ∧
    ∀ issn n, sjr_map !! issn = Some n →
      maximum_of n (observed_scores issn (csv_rows text)).
Proof.
  unfold load_sjr_map, load_records, csv_rows.
  destruct (fs !! csv_path) as [text|]; [|discriminate].
  intros Hload. exists text. split; [reflexivity|].
  destruct (Csv.reader text) as [[|fieldnames records] stop].
  - by destruct stop.
  - case_bool_decide; [discriminate|].
    intros issn n Hn.
    pose proof (load_rows_scores _ _ _ _ _ [] Hload scores_recorded_empty issn)
      as Hrec.
    by rewrite Hn in Hrec.
Qed.

Lemma no_whitespace_not_newline_ended (s : string) :
  no_whitespace s → ends_with_newline s = false.
Proof.
  unfold no_whitespace. induction s as [|c s IH]; [done|].
  cbn [Py.all_chars ends_with_newline].
  intros [Hc Hs]%andb_true_iff. destruct s as [|d s]; [|by apply IH].
  simpl. destruct (Ascii.eqb_spec c Csv.LF) as [->|]; [discriminate|done].
Qed.

Lemma issn_shaped_valid (issn : string) :
  issn_shaped issn = true → is_valid_issn issn = true.
Proof.
  intros Hshape. rewrite is_valid_issn_shaped; [done|].
  by apply no_whitespace_not_newline_ended, issn_shaped_no_whitespace.
Qed.

Lemma digit_issn_char (c : ascii) : Py.isdigit c = true → issn_char c = true.
Proof. unfold issn_char. by intros ->. Qed.

Lemma issn_shaped_tail_chars (rest : string) :
  issn_shaped_tail rest = true →
  Py.all_chars issn_char rest = true ∧ String.length rest = 4%nat.
Proof.
  destruct rest as [|e [|f [|g [|h [|n tail]]]]]; try discriminate.
  cbn -[Py.isdigit issn_char Ascii.eqb].
  intros [[[He Hf]%andb_true_iff Hg]%andb_true_iff Hh]%andb_true_iff.
  rewrite !digit_issn_char by done. split; [|done].
  unfold issn_char. rewrite !andb_true_r.
  apply orb_true_iff in Hh as [[->| ->]%orb_true_iff| ->];
    by rewrite ?orb_true_r.
Qed.

Lemma issn_shaped_chars (issn : string) :
  issn_shaped issn = true →
  Py.all_chars issn_char issn = true ∧
  (8 ≤ String.length issn ≤ 9)%nat.
Proof.
  destruct issn as [|a [|b [|c [|d rest]]]]; try discriminate.
  unfold issn_shaped.
  intros [[[[Ha Hb]%andb_true_iff Hc]%andb_true_iff Hd]%andb_true_iff Hrest]%andb_true_iff.
  cbn -[Py.isdigit issn_char Ascii.eqb].
  rewrite !digit_issn_char by done. cbn [andb].
  destruct rest as [|sep rest]; [discriminate|].
  destruct (Ascii.eqb_spec sep "-") as [->|Hsep].
  - apply issn_shaped_tail_chars in Hrest as [Hchars Hlen].
    cbn -[Py.isdigit issn_char Ascii.eqb]. rewrite Hchars, Hlen.
    split; [reflexivity|lia].
  - apply issn_shaped_tail_chars in Hrest as [Hchars Hlen].
    rewrite Hchars, Hlen. split; [reflexivity|lia].
Qed.

(** X10. Every key of the dictionary that [load_sjr_map] returns is
    accepted by [is_valid_issn], has eight or nine characters, and holds
    only digits, the hyphen and the letter X: no quote, backslash or line
    break can reach the emitted module through a key. *)
Theorem load_sjr_map_keys (fs : gmap string string) (csv_path : string)
    (sjr_map : gmap string Z) (issn : string) :
  load_sjr_map fs csv_path = Ok sjr_map →
  is_Some (sjr_map !! issn) →
  is_valid_issn issn = true ∧
  Py.all_chars issn_char issn = true ∧
  (8 ≤ String.length issn ≤ 9)%nat.
Proof.
  intros (text & _ & Hscores)%load_sjr_map_scores [n Hn].
  destruct (Hscores issn n Hn) as [Hin _].
  apply observed_scores_row in Hin as (row & _ & Hissn & _).
  apply row_issns_shaped in Hissn.
  split; [by apply issn_shaped_valid|by apply issn_shaped_chars].
Qed.

Lemma load_sjr_map_keys_witness :
  load_sjr_map {[ "scimago.csv"%string := example_csv LF ]} "scimago.csv"
    = Ok {[ "0987-654X"%string := 5; "1234-5678"%string := 5 ]} ∧
  is_Some (({[ "0987-654X"%string := 5; "1234-5678"%string := 5 ]}
              : gmap string Z) !! "0987-654X"%string) ∧
  is_valid_issn "0987-654X" = true ∧
  Py.all_chars issn_char "0987-654X" = true ∧
  (8 ≤ String.length "0987-654X" ≤ 9)%nat.
Proof.
  assert (load_sjr_map {[ "scimago.csv"%string := example_csv LF ]}
            "scimago.csv"
          = Ok {[ "0987-654X"%string := 5; "1234-5678"%string := 5 ]})
    as Hload by (vm_compute; reflexivity).
  assert (is_Some (({[ "0987-654X"%string := 5; "1234-5678"%string := 5 ]}
                      : gmap string Z) !! "0987-654X"%string)) as Hkey
    by (by exists 5).
  split; [exact Hload|]. split; [exact Hkey|].
  exact (load_sjr_map_keys _ _ _ _ Hload Hkey).
Defined.

(** ** The whole run *)

Lemma js_text_layout (sjr_map : gmap string Z) :
  layout "    " sjr_map (js_text sjr_map).
Proof.
  exists ((λ issn, (issn, sjr_map !!! issn))
            <$> Py.sorted (map_to_list sjr_map).*1).
  assert (((λ issn, (issn, sjr_map !!! issn))
             <$> Py.sorted (map_to_list sjr_map).*1).*1
          = Py.sorted (map_to_list sjr_map).*1) as Hkeys.
  { rewrite <- list_fmap_compose. apply list_fmap_id. }
  split; [apply sorted_keys_entries|].
  rewrite Hkeys. split; [|split].
  - unfold Py.sorted. rewrite merge_sort_Permutation.
    apply NoDup_fst_map_to_list.
  - apply Sorted_merge_sort. apply _.
  - unfold js_text, js_lines.
    rewrite <- list_fmap_compose.
    change [ "};"%string; EmptyString ]
      with ([ "};"%string ] ++ [ EmptyString ]).
    rewrite !app_assoc. rewrite join_unlines.
    rewrite <- !app_assoc. reflexivity.
Qed.


(** ** Integer scores *)

Lemma round_half_even_exact (n q : Z) :
  0 < q → Float.round_half_even (n * q) q = n.
Proof.
  intros Hq. unfold Float.round_half_even.
  rewrite Z.mod_mul, Z.div_mul by lia.
  by destruct (Z.compare_spec (2 * 0) q); [lia| |lia].
Qed.

Lemma round_half_even_one (p : Z) : Float.round_half_even p 1 = p.
Proof.
  pose proof (round_half_even_exact p 1) as H.
  rewrite Z.mul_1_r in H. apply H. lia.
Qed.

Lemma of_ratio_integer (n : Z) :
  0 < n < 2 ^ 53 →
  ∃ m e, Float.of_ratio false n 1 = Float.Finite false m e ∧
         e ≤ 0 ∧ m = n * 2 ^ (- e).
Proof.
  intros [Hpos Hlt].
  pose proof (Z.log2_spec n Hpos) as [Hlow Hhigh].
  pose proof (Z.log2_nonneg n) as Hnonneg.
  assert (Z.log2 n < 53) as Hlog by (apply Z.log2_lt_pow2; lia).
  unfold Float.of_ratio.
  rewrite (proj2 (Z.eqb_neq n 0)) by lia.
  assert (Float.floor_log2 n 1 = Z.log2 n) as ->.
  { unfold Float.floor_log2, Float.scale2.
    change (Z.log2 1) with 0. rewrite Z.sub_0_r.
    rewrite (proj2 (Z.leb_le 0 (Z.log2 n))) by lia.
    rewrite Z.mul_1_l. by rewrite (proj2 (Z.leb_le _ _)) by lia. }
  rewrite Z.max_l by lia.
  set (e := Z.log2 n - 52). assert (-52 ≤ e ≤ 0) as He by (unfold e; lia).
  assert (Float.scale2 n 1 e = (n * 2 ^ (- e), 1)) as ->.
  { unfold Float.scale2. destruct (Z.leb_spec 0 e); [|reflexivity].
    replace e with 0 by lia. simpl. f_equal; lia. }
  cbv beta iota zeta. rewrite !round_half_even_one.
  exists (n * 2 ^ (- e)), e.
  assert ((0 <=? e) && (2 ^ 1024 <=? n * 2 ^ (- e) * 2 ^ e) = false) as ->.
  { destruct (Z.leb_spec 0 e); [|reflexivity].
    replace e with 0 by lia. simpl (2 ^ (-0)). simpl (2 ^ 0).
    apply andb_false_iff. right. apply Z.leb_gt.
    assert (2 ^ 53 < 2 ^ 1024) by (apply Z.pow_lt_mono_r; lia). lia. }
  split; [reflexivity|]. split; [lia|reflexivity].
Qed.

Lemma round_of_decimal_integer (n : Z) :
  0 ≤ n < 2 ^ 53 →
  Float.round (Float.of_decimal false n 0) = Ok n.
Proof.
  intros [Hpos Hlt]. unfold Float.of_decimal.
  change (0 <=? 0) with true. cbv iota.
  rewrite Z.pow_0_r, Z.mul_1_r.
  destruct (decide (n = 0)) as [->|Hne]; [reflexivity|].
  destruct (of_ratio_integer n) as (m & e & -> & He & ->); [lia|].
  unfold Float.round, Float.scale2.
  rewrite (proj2 (Z.leb_le 0 (- e))) by lia.
  rewrite Z.mul_1_l, round_half_even_exact; [reflexivity|].
  apply Z.pow_pos_nonneg; lia.
Qed.

Lemma digit_not_float_space (c : ascii) :
  Py.isdigit c = true → Float.isspace c = false.
Proof.
  destruct c as [[] [] [] [] [] [] [] []]; vm_compute; congruence.
Qed.

Lemma digit_not_punctuation (c : ascii) :
  Py.isdigit c = true →
  Ascii.eqb c " " = false ∧ Ascii.eqb c "," = false ∧
  Ascii.eqb c "_" = false ∧ Ascii.eqb c "-" = false ∧
  Ascii.eqb c "+" = false.
Proof.
  destruct c as [[] [] [] [] [] [] [] []]; vm_compute; try congruence;
    by repeat split.
Qed.

Lemma lstrip_by_keeps (p : ascii → bool) (s : string) :
  Py.all_chars (λ c, negb (p c)) s = true → Py.lstrip_by p s = s.
Proof.
  destruct s as [|c s]; [done|]. simpl.
  intros [Hc _]%andb_true_iff. by apply negb_true_iff in Hc as ->.
Qed.

Lemma rstrip_by_keeps (p : ascii → bool) (s : string) :
  Py.all_chars (λ c, negb (p c)) s = true → Py.rstrip_by p s = s.
Proof.
  induction s as [|c s IH]; [done|]. simpl.
  intros [Hc Hs]%andb_true_iff. apply negb_true_iff in Hc.
  by rewrite Hc, IH.
Qed.

Lemma all_chars_impl (p q : ascii → bool) (s : string) :
  (∀ c, p c = true → q c = true) →
  Py.all_chars p s = true → Py.all_chars q s = true.
Proof.
  intros Hpq. induction s as [|c s IH]; [done|]. simpl.
  intros [Hc Hs]%andb_true_iff. by rewrite (Hpq c Hc), IH.
Qed.

Lemma digits_contain (c : ascii) (s : string) :
  Py.isdigit c = false →
  Py.all_chars Py.isdigit s = true → Py.contains c s = false.
Proof.
  intros Hc. induction s as [|d s IH]; [done|]. simpl.
  intros [Hd Hs]%andb_true_iff. rewrite IH by done.
  destruct (Ascii.eqb_spec d c) as [->|]; [congruence|done].
Qed.

Lemma digits_strip (s : string) :
  Py.all_chars Py.isdigit s = true → Py.strip s = s.
Proof.
  intros Hs. unfold Py.strip.
  assert (Py.all_chars (λ c, negb (Py.isspace c)) s = true) as Hclean.
  { revert Hs. apply all_chars_impl. intros c Hc.
    by rewrite digit_not_space. }
  by rewrite lstrip_by_keeps, rstrip_by_keeps.
Qed.

Lemma digits_literal (s : string) :
  Py.all_chars Py.isdigit s = true → sjr_literal s = s.
Proof.
  intros Hs. unfold sjr_literal. rewrite digits_strip by done.
  rewrite replace_no_occurrence by by apply digits_contain.
  by rewrite (digits_contain "," s).
Qed.

Lemma digits_drop_underscores (s : string) (prev : ascii) :
  Ascii.eqb prev "_" = false →
  Py.all_chars Py.isdigit s = true →
  Float.drop_underscores prev s = Some s.
Proof.
  revert prev. induction s as [|c s IH]; intros prev Hprev; simpl.
  - by rewrite Hprev.
  - intros [Hc Hs]%andb_true_iff.
    destruct (digit_not_punctuation c Hc) as (_ & _ & Hunder & _).
    rewrite Hunder, Hprev. simpl. by rewrite IH.
Qed.

Lemma digits_span (s : string) :
  Py.all_chars Py.isdigit s = true →
  Float.span_digits s = (s, EmptyString).
Proof.
  induction s as [|c s IH]; [done|]. simpl.
  intros [Hc Hs]%andb_true_iff. by rewrite Hc, IH.
Qed.

Lemma append_empty (s : string) : s +:+ EmptyString = s.
Proof.
  induction s as [|c s IH]; [done|].
  change (String c s +:+ EmptyString) with (String c (s +:+ EmptyString)).
  by rewrite IH.
Qed.

Lemma digits_parse (s : string) :
  s ≠ EmptyString →
  Py.all_chars Py.isdigit s = true →
  Float.parse s = Some (Float.of_decimal false (Float.digits_value 0 s) 0).
Proof.
  intros Hne Hs. unfold Float.parse.
  assert (Float.take_sign s = (false, s)) as ->.
  { destruct s as [|c s]; [done|]. simpl in Hs.
    apply andb_true_iff in Hs as [Hc _].
    destruct (digit_not_punctuation c Hc) as (_ & _ & _ & Hminus & Hplus).
    unfold Float.take_sign.
    destruct c as [[] [] [] [] [] [] [] []]; try reflexivity;
      discriminate. }
  unfold Float.parse_number. rewrite digits_span by done.
  destruct s as [|c s]; [done|]. cbn [Py.is_empty andb].
  by rewrite append_empty.
Qed.

Lemma digits_value_bounds (s : string) (acc : Z) :
  0 ≤ acc → Py.all_chars Py.isdigit s = true → 0 ≤ Float.digits_value acc s.
Proof.
  revert acc. induction s as [|c s IH]; intros acc Hacc; [done|].
  simpl. intros [Hc Hs]%andb_true_iff. apply IH; [lia|done].
Qed.

(** X14. A score written as a plain non-negative integer below [2^53] is
    read exactly: [parse_sjr] returns the integer the digits denote. *)
Theorem parse_sjr_integer (value : string) :
  value ≠ EmptyString →
  Py.all_chars Py.isdigit value = true →
  Float.digits_value 0 value < 2 ^ 53 →
  parse_sjr (Some value) = Ok (Some (Float.digits_value 0 value)).
Proof.
  intros Hne Hdigits Hsmall. unfold parse_sjr.
  rewrite digits_strip, digits_literal by done.
  destruct value as [|c rest] eqn:Hvalue; [done|].
  cbn [Py.truthy Py.is_empty negb]. rewrite <- Hvalue in *.
  unfold Float.of_string.
  assert (Py.all_chars (λ c, negb (Float.isspace c)) value = true)
    as Hclean.
  { revert Hdigits. apply all_chars_impl. intros d Hd.
    by rewrite digit_not_float_space. }
  rewrite lstrip_by_keeps, rstrip_by_keeps by done.
  rewrite digits_drop_underscores by done.
  change (Some value ≫= Float.parse) with (Float.parse value).
  rewrite digits_parse by (by subst value).
  rewrite round_of_decimal_integer; [reflexivity|].
  split; [|done]. by apply digits_value_bounds.
Qed.

Lemma parse_sjr_integer_witness :
  "2024"%string ≠ EmptyString ∧
  Py.all_chars Py.isdigit "2024" = true ∧
  Float.digits_value 0 "2024" < 2 ^ 53 ∧
  parse_sjr (Some "2024") = Ok (Some (Float.digits_value 0 "2024")).
Proof.
  assert ("2024"%string ≠ EmptyString) as Hne by discriminate.
  assert (Py.all_chars Py.isdigit "2024" = true) as Hdigits by reflexivity.
  assert (Float.digits_value 0 "2024" < 2 ^ 53) as Hsmall by reflexivity.
  split; [exact Hne|]. split; [exact Hdigits|]. split; [exact Hsmall|].
  exact (parse_sjr_integer "2024" Hne Hdigits Hsmall).
Defined.

(** ** The decimal comma *)

Lemma replace_char_cons (old d c : ascii) (s : string) :
  Py.replace old (String d EmptyString) (String c s)
  = String (if Ascii.eqb c old then d else c)
           (Py.replace old (String d EmptyString) s).
Proof. simpl. by destruct (Ascii.eqb c old). Qed.

Lemma replace_char_empty (old d : ascii) (s : string) :
  Py.is_empty (Py.replace old (String d EmptyString) s) = Py.is_empty s.
Proof. destruct s as [|c s]; [done|]. by rewrite replace_char_cons. Qed.

Lemma lstrip_by_replace (p : ascii → bool) (old d : ascii) (s : string) :
  p old = false → p d = false →
  Py.lstrip_by p (Py.replace old (String d EmptyString) s)
  = Py.replace old (String d EmptyString) (Py.lstrip_by p s).
Proof.
  intros Hold Hd. induction s as [|c s IH]; [done|].
  rewrite replace_char_cons. cbn [Py.lstrip_by].
  destruct (Ascii.eqb_spec c old) as [->|Hc].
  - by rewrite Hd, Hold, replace_char_cons, Ascii.eqb_refl.
  - destruct (p c); [exact IH|].
    rewrite replace_char_cons. by rewrite (proj2 (Ascii.eqb_neq c old)).
Qed.

Lemma rstrip_by_replace (p : ascii → bool) (old d : ascii) (s : string) :
  p old = false → p d = false →
  Py.rstrip_by p (Py.replace old (String d EmptyString) s)
  = Py.replace old (String d EmptyString) (Py.rstrip_by p s).
Proof.
  intros Hold Hd. induction s as [|c s IH]; [done|].
  rewrite replace_char_cons. cbn [Py.rstrip_by]. cbv zeta.
  rewrite IH, replace_char_empty.
  destruct (Ascii.eqb_spec c old) as [->|Hc].
  - rewrite Hd, Hold. cbn [andb]. by rewrite replace_char_cons, Ascii.eqb_refl.
  - destruct (p c && Py.is_empty (Py.rstrip_by p s)); [done|].
    rewrite replace_char_cons. by rewrite (proj2 (Ascii.eqb_neq c old)).
Qed.

Lemma strip_replace (old d : ascii) (s : string) :
  Py.isspace old = false → Py.isspace d = false →
  Py.strip (Py.replace old (String d EmptyString) s)
  = Py.replace old (String d EmptyString) (Py.strip s).
Proof.
  intros Hold Hd. unfold Py.strip.
  by rewrite lstrip_by_replace, rstrip_by_replace.
Qed.

(** Removing one character and replacing another by a third can be done
    in either order. *)
Lemma replace_remove_commute (gone old d : ascii) (s : string) :
  Ascii.eqb old gone = false → Ascii.eqb d gone = false →
  Py.replace gone EmptyString (Py.replace old (String d EmptyString) s)
  = Py.replace old (String d EmptyString) (Py.replace gone EmptyString s).
Proof.
  intros Hold Hd. induction s as [|c s IH]; [done|].
  rewrite replace_char_cons. cbn [Py.replace].
  destruct (Ascii.eqb_spec c old) as [->|Hc].
  - rewrite Hd, Hold, replace_char_cons, Ascii.eqb_refl. by rewrite IH.
  - destruct (Ascii.eqb c gone).
    + change (EmptyString +:+ ?x) with x. exact IH.
    + rewrite replace_char_cons, (proj2 (Ascii.eqb_neq c old)) by done.
      by rewrite IH.
Qed.

Lemma lstrip_by_keeps_absent (p : ascii → bool) (c : ascii) (s : string) :
  Py.contains c s = false → Py.contains c (Py.lstrip_by p s) = false.
Proof.
  induction s as [|d s IH]; [done|]. cbn [Py.lstrip_by].
  destruct (p d); [|done]. simpl.
  intros [_ Hs]%orb_false_iff. by apply IH.
Qed.

Lemma rstrip_by_keeps_absent (p : ascii → bool) (c : ascii) (s : string) :
  Py.contains c s = false → Py.contains c (Py.rstrip_by p s) = false.
Proof.
  induction s as [|d s IH]; [done|]. cbn [Py.rstrip_by]. cbv zeta. simpl.
  intros [Hd Hs]%orb_false_iff.
  destruct (p d && Py.is_empty (Py.rstrip_by p s)); [done|].
  simpl. by rewrite Hd, IH.
Qed.

(** X15. The comma and the point are interchangeable as the decimal
    separator: for a field without a point, writing every comma as a point
    does not change what [parse_sjr] returns or raises. *)
Theorem parse_sjr_decimal_comma (value : string) :
  Py.contains "." value = false →
  parse_sjr (Some (Py.replace "," "." value)) = parse_sjr (Some value).
Proof.
  intros Hpoint. unfold parse_sjr.
  assert (sjr_literal (Py.replace "," "." value) = sjr_literal value)
    as ->.
  { unfold sjr_literal.
    rewrite strip_replace by reflexivity.
    rewrite replace_remove_commute by reflexivity.
    set (cleaned := Py.replace " " EmptyString (Py.strip value)).
    assert (Py.contains "." cleaned = false) as Hclean.
    { apply replace_keeps_absent; [reflexivity|].
      by apply rstrip_by_keeps_absent, lstrip_by_keeps_absent. }
    rewrite replace_removes by reflexivity. cbn [andb].
    rewrite Hclean, andb_false_r.
    destruct (Py.contains "," cleaned) eqn:Hcomma; [reflexivity|].
    by apply replace_no_occurrence. }
  rewrite strip_replace by reflexivity.
  cbn [Py.truthy]. by rewrite replace_char_empty.
Qed.

Lemma parse_sjr_decimal_comma_witness :
  Py.contains "." "8,6" = false ∧
  parse_sjr (Some (Py.replace "," "." "8,6")) = parse_sjr (Some "8,6").
Proof.
  assert (Py.contains "." "8,6" = false) as Hpoint by reflexivity.
  split; [exact Hpoint|].
  exact (parse_sjr_decimal_comma "8,6" Hpoint).
Defined.
